(** * TrackingUtils: a shallow embedding of [src/utils/trackingUtils.ts]

    The file follows the TypeScript source function by function.

    Conventions of the embedding:
    - a JavaScript string is a [string], one [ascii] per code unit (code
      units 0..255);
    - a JavaScript number is a [number]: an exact rational, or one of
      [NaN], [+Infinity], [-Infinity]; the code adds and subtracts whole
      numbers only, which is exact, except in [calculateScrollDepth],
      whose operands are kept as binary64 numbers ([Float64]) and whose
      division and multiplication round as IEEE 754 has it;
    - a property that may be missing ([undefined] or [null]) is an
      [option];
    - the browser a call runs in is a [Browser] record (navigator, window,
      screen, document, clock, random source, network); what a call may
      change is a [Run] record (the [localStorage] map and how many times
      the clock and the random source were read);
    - a call is a [JS A]: from a browser and a run state it completes
      normally with a value, completes abruptly with a thrown error, or,
      for an [async] function, stays pending for ever.
    - [console.warn] and [console.error] are not observable by the caller
      and are left out. *)

From Stdlib Require Import ZArith QArith Qpower Bool Ascii String List Lia Lqa.
From Stdlib Require Import DecimalString DecimalPos DecimalZ.
From Stdlib Require Import Floats.SpecFloat.
From stdpp Require Import base option list strings gmap.

Close Scope Q_scope.
Open Scope string_scope.
Open Scope bool_scope.

(** ** Regular expressions

    The fragment of ECMAScript patterns used by [detectDeviceType]:
    literal characters, alternation, concatenation, [.*], the word
    boundary assertion and positive lookahead. *)

Module RegExp.

Inductive regex : Type :=
| Lit (s : string)
| Alt (r1 r2 : regex)
| Seq (r1 r2 : regex)
| DotStar
| WordBoundary
| LookAhead (r : regex).

Definition between (lo hi : nat) (c : ascii) : bool :=
  (lo <=? nat_of_ascii c)%nat && (nat_of_ascii c <=? hi)%nat.

(** [\w] is [[A-Za-z0-9_]] (the [u] flag is not set). *)
Definition is_word_char (c : ascii) : bool :=
  between 65 90 c || between 97 122 c || between 48 57 c
  || Ascii.eqb c "_"%char.

(** Line terminators: [.] matches every character but these. *)
Definition is_line_terminator (c : ascii) : bool :=
  Ascii.eqb c "010"%char || Ascii.eqb c "013"%char.

(** Canonicalize of the specification, without the [u] flag: the upper
    case of the character under the [i] flag. A character above 127 is
    never mapped below 128, so on the patterns of this file (all ASCII)
    only the ASCII letters need their upper case. *)
Definition canonicalize (ignoreCase : bool) (c : ascii) : ascii :=
  if ignoreCase && between 97 122 c
  then ascii_of_nat (nat_of_ascii c - 32)
  else c.

Definition char_match (ignoreCase : bool) (a c : ascii) : bool :=
  Ascii.eqb (canonicalize ignoreCase a) (canonicalize ignoreCase c).

(** A position in the input: the character before it, if any, and the
    rest of the input. A continuation says whether the rest of the
    pattern matches from a position. *)
Definition cont : Type := option ascii -> string -> bool.

Definition accept : cont := fun _ _ => true.

Definition is_word (c : option ascii) : bool :=
  match c with Some a => is_word_char a | None => false end.

Definition next_char (s : string) : option ascii :=
  match s with String c _ => Some c | EmptyString => None end.

Fixpoint match_lit (ignoreCase : bool) (l : string)
         (prev : option ascii) (s : string) (k : cont) : bool :=
  match l with
  | EmptyString => k prev s
  | String a l' =>
      match s with
      | EmptyString => false
      | String c s' =>
          if char_match ignoreCase a c
          then match_lit ignoreCase l' (Some c) s' k
          else false
      end
  end.

(** [.*] is greedy: the longest run is tried first. *)
Fixpoint match_dotstar (prev : option ascii) (s : string) (k : cont) : bool :=
  match s with
  | EmptyString => k prev s
  | String c s' =>
      (if is_line_terminator c then false
       else match_dotstar (Some c) s' k)
      || k prev s
  end.

(** The backtracking matcher, in continuation-passing style. *)
Fixpoint matches (ignoreCase : bool) (r : regex)
         (prev : option ascii) (s : string) (k : cont) : bool :=
  match r with
  | Lit l => match_lit ignoreCase l prev s k
  | Alt r1 r2 =>
      matches ignoreCase r1 prev s k || matches ignoreCase r2 prev s k
  | Seq r1 r2 =>
      matches ignoreCase r1 prev s
              (fun prev' s' => matches ignoreCase r2 prev' s' k)
  | DotStar => match_dotstar prev s k
  | WordBoundary =>
      if xorb (is_word prev) (is_word (next_char s)) then k prev s
      else false
  | LookAhead r1 =>
      if matches ignoreCase r1 prev s accept then k prev s else false
  end.

(** The pattern is tried at every start index, from the left. *)
Fixpoint search (ignoreCase : bool) (r : regex)
         (prev : option ascii) (s : string) : bool :=
  matches ignoreCase r prev s accept
  || match s with
     | EmptyString => false
     | String c s' => search ignoreCase r (Some c) s'
     end.

(** [RegExp.prototype.test] of a pattern without the [g] and [y] flags. *)
Definition test (ignoreCase : bool) (r : regex) (s : string) : bool :=
  search ignoreCase r None s.

(** [a|b|c|...] *)
Fixpoint alternatives (r : regex) (rs : list regex) : regex :=
  match rs with
  | [] => r
  | r' :: rs' => Alt r (alternatives r' rs')
  end.

(** [\bword\b] *)
Definition whole_word (w : string) : regex :=
  Seq WordBoundary (Seq (Lit w) WordBoundary).

End RegExp.

Import RegExp.

(** ** Numbers *)

Module Num.

Inductive number : Type :=
| Fin (q : Q)
| PosInf
| NegInf
| NaN.

Definition int (z : Z) : number := Fin (inject_Z z).

Definition is_zero (q : Q) : bool := (Qnum q =? 0)%Z.

(** Results are kept in lowest terms, so that equal numbers are equal
    terms. *)
Definition sub (a b : number) : number :=
  match a, b with
  | NaN, _ | _, NaN => NaN
  | Fin x, Fin y => Fin (Qred (x - y))
  | PosInf, PosInf | NegInf, NegInf => NaN
  | PosInf, _ | _, NegInf => PosInf
  | NegInf, _ | _, PosInf => NegInf
  end.

Definition is_finite (a : number) : bool :=
  match a with Fin _ => true | _ => false end.


End Num.

Import Num.
Coercion int : Z >-> number.

(** ** Binary64 numbers

    The numbers of IEEE 754 in the binary64 format, with the operations
    of the standard library's executable specification: each result is
    the exact one rounded to the nearest binary64 number, ties to even. *)

Module Float64.

Definition float64 : Type := spec_float.

Definition prec : Z := 53.
Definition emax : Z := 1024.

Definition sub : float64 -> float64 -> float64 := SFsub prec emax.
Definition mul : float64 -> float64 -> float64 := SFmul prec emax.
Definition div : float64 -> float64 -> float64 := SFdiv prec emax.

(** The binary64 number nearest to a whole number: the number itself
    below [2^53]. *)
Definition of_Z (z : Z) : float64 := binary_normalize prec emax z 0 false.

(** [n * 2^e] *)
Definition value (n e : Z) : Q := (inject_Z n * 2 ^ e)%Q.

(** A binary64 number as the [number] it stands for, a rational in lowest
    terms: the sign of zero is forgotten, nothing else. *)
Definition to_number (x : float64) : number :=
  match x with
  | S754_zero _ => Fin 0
  | S754_infinity s => if s then NegInf else PosInf
  | S754_nan => NaN
  | S754_finite s m e => Fin (Qred (value (cond_Zopp s (Z.pos m)) e))
  end.

End Float64.

(** ** Truthiness and the operators [||] and [??] *)

(** ToBoolean on the values of a type. *)
Class ToBoolean (A : Type) : Type := to_boolean : A -> bool.

#[global] Instance string_to_boolean : ToBoolean string :=
  fun s => negb (String.eqb s "").

#[global] Instance number_to_boolean : ToBoolean number :=
  fun n =>
    match n with
    | Fin q => negb (is_zero q)
    | PosInf | NegInf => true
    | NaN => false
    end.

#[global] Instance float64_to_boolean : ToBoolean Float64.float64 :=
  fun x =>
    match x with
    | S754_zero _ | S754_nan => false
    | S754_infinity _ | S754_finite _ _ _ => true
    end.

#[global] Instance bool_to_boolean : ToBoolean bool := fun b => b.

(** ToBoolean of a property that may be missing. *)
Definition truthy {A} `{ToBoolean A} (o : option A) : bool :=
  match o with
  | Some a => to_boolean a
  | None => false
  end.

(** [a || b] *)
Definition js_or {A} `{ToBoolean A} (a b : option A) : option A :=
  if truthy a then a else b.

(** [a ?? b] *)
Definition js_nullish {A} (a b : option A) : option A :=
  match a with
  | Some _ => a
  | None => b
  end.

Declare Scope js_scope.
Delimit Scope js_scope with js.
Infix "|||" := js_or (at level 50, left associativity) : js_scope.
Infix "???" := js_nullish (at level 50, left associativity) : js_scope.

Open Scope js_scope.

(** [a || b] on values that are always there. *)
Definition js_or_value {A} `{ToBoolean A} (a b : A) : A :=
  if to_boolean a then a else b.

(** ** The tracked data *)

(** Modelled from the spec: the interface [UserTrackingData] of
    [hooks/useUserTracking], whose fields are those the snapshot of the
    data model lists and [formatTrackingData] fills. One record serves
    for [UserTrackingData] and [Partial<UserTrackingData>]: a field that
    is [undefined] (or [null]) is [None]. *)
Record UserTrackingData : Type := {
  userAgent : option string;
  language : option string;
  platform : option string;
  cookieEnabled : option bool;
  doNotTrack : option string;
  screenWidth : option number;
  screenHeight : option number;
  viewportWidth : option number;
  viewportHeight : option number;
  colorDepth : option number;
  pixelRatio : option number;
  connectionType : option string;
  effectiveType : option string;
  downlink : option number;
  rtt : option number;
  ipAddress : option string;
  timezone : option string;
  sessionStartTime : option number;
  totalActiveTime : option number;
  lastActivityTime : option number;
  pageViews : option number;
  clicks : option number;
  scrollDepth : option number;
  mouseMovements : option number;
  referrer : option string;
  currentUrl : option string;
  pageLoadTime : option number;
  isMobile : option bool;
  isTablet : option bool;
  isDesktop : option bool;
  touchSupport : option bool;
  sessionId : option string;
  timestamp : option number
}.

(** The object [{}]. *)
Definition no_overrides : UserTrackingData :=
  {| userAgent := None; language := None; platform := None;
     cookieEnabled := None; doNotTrack := None;
     screenWidth := None; screenHeight := None; viewportWidth := None;
     viewportHeight := None; colorDepth := None; pixelRatio := None;
     connectionType := None; effectiveType := None; downlink := None;
     rtt := None; ipAddress := None; timezone := None;
     sessionStartTime := None; totalActiveTime := None;
     lastActivityTime := None; pageViews := None; clicks := None;
     scrollDepth := None; mouseMovements := None; referrer := None;
     currentUrl := None; pageLoadTime := None; isMobile := None;
     isTablet := None; isDesktop := None; touchSupport := None;
     sessionId := None; timestamp := None |}.

(** Modelled from the spec: the interface [TrackingEvent] of
    [hooks/useUserTracking], with the event types of the data model. *)
Inductive EventType : Type :=
| focus | blur | scroll | click | mousemove | page_view | session_end.

Record TrackingEvent : Type := {
  ev_type : EventType;
  ev_data : UserTrackingData;
  ev_timestamp : option number   (* [None]: null, in an event read back *)
}.

(** An element of the array kept under the [trackingData] key. *)
Record StoredEntry : Type := {
  se_trackingData : UserTrackingData;
  se_events : list TrackingEvent;
  se_timestamp : option number   (* [None]: null, in an entry read back *)
}.

(** ** The browser *)

(** [navigator.connection] *)
Record NetworkInformation : Type := {
  ni_effectiveType : option string;
  ni_type : option string;
  ni_downlink : option number;
  ni_rtt : option number
}.

(** [window.performance.timing] *)
Record PerformanceTiming : Type := {
  loadEventEnd : number;
  navigationStart : number
}.

(** A JSON value, as far as [getIPAddress] looks at it. *)
Inductive json : Type :=
| JsonNull                         (* the value null *)
| JsonValue (ip : option string).  (* another value, with its ip property *)

(** The [body] is what the text received parses to, if it is JSON. *)
Record Response : Type := {
  status : nat;
  body : option json
}.

Inductive exn : Type :=
| SecurityError
| QuotaExceededError
| SyntaxError
| TypeError
| NetworkFailure    (* fetch rejects: connection refused, DNS, CORS *)
| NetworkTimeout.   (* fetch rejects: the network stack gave up *)

(** How a computation or a promise ends. *)
Inductive completion (A : Type) : Type :=
| Normal (a : A)
| Abrupt (e : exn)
| Pending.

Arguments Normal {A} a.
Arguments Abrupt {A} e.
Arguments Pending {A}.

(** A promise, as the state it reaches in the end. *)
Definition Promise (A : Type) : Type := completion A.

(** What a value stored in [localStorage] parses to. *)
Inductive parsed : Type :=
| PArray (entries : list StoredEntry)
| PNull
| POther.          (* a number, a string, a boolean or an object *)

(** A text stored in [localStorage], by what [JSON.parse] makes of it. *)
Inductive stored : Type :=
| Blank                    (* the empty string *)
| Malformed                (* a non-empty text that is not JSON *)
| Serialized (v : parsed). (* the JSON text of [v] *)

#[global] Instance stored_to_boolean : ToBoolean stored :=
  fun t => match t with Blank => false | _ => true end.

(** The fractional digits, in base 36, that [toString(36)] prints for a
    number of [[0,1)]; none for zero. *)
Definition fraction36 : Type := list nat.

Record Browser : Type := {
  navigator_userAgent : string;
  navigator_language : string;
  navigator_platform : string;
  navigator_cookieEnabled : bool;
  navigator_doNotTrack : option string;
  navigator_connection : option NetworkInformation;
  screen_width : number;
  screen_height : number;
  screen_colorDepth : number;
  window_innerWidth : number;
  window_innerHeight : Float64.float64;
  window_devicePixelRatio : number;
  window_pageYOffset : Float64.float64;
  window_ontouchstart : bool;          (* ['ontouchstart' in window] *)
  window_location_href : string;
  window_performance_timing : option PerformanceTiming;
  document_referrer : string;
  documentElement_scrollTop : Float64.float64;
  documentElement_scrollHeight : Float64.float64;
  intl_timeZone : string;
  clock : nat -> Z;                    (* the k-th reading of [Date.now()] *)
  entropy : nat -> fraction36;         (* the k-th [Math.random()] *)
  network : string -> completion Response;  (* how [fetch url] settles *)
  storage_denied : bool;               (* reaching [localStorage] throws *)
  storage_quota : stored -> bool       (* the text fits in the quota *)
}.

(** What a call may change. *)
Record Run : Type := {
  ticks : nat;
  draws : nat;
  localStorage : gmap string stored
}.

(** ** Computations *)

Definition JS (A : Type) : Type := Browser -> Run -> completion A * Run.

Definition ret {A} (a : A) : JS A := fun _ r => (Normal a, r).

Definition bind {A B} (m : JS A) (f : A -> JS B) : JS B :=
  fun b r =>
    match m b r with
    | (Normal a, r') => f a b r'
    | (Abrupt e, r') => (Abrupt e, r')
    | (Pending, r') => (Pending, r')
    end.

Definition throw {A} (e : exn) : JS A := fun _ r => (Abrupt e, r).

(** [try { m } catch (error) { handler error }] *)
Definition try_catch {A} (m : JS A) (handler : exn -> JS A) : JS A :=
  fun b r =>
    match m b r with
    | (Abrupt e, r') => handler e b r'
    | other => other
    end.

Definition browser : JS Browser := fun b r => (Normal b, r).

Notation "x <- m ;; k" := (bind m (fun x => k))
  (at level 100, m at next level, right associativity) : js_scope.
Notation "m ;;; k" := (bind m (fun _ => k))
  (at level 100, right associativity) : js_scope.

(** [await p] *)
Definition await {A} (p : Promise A) : JS A := fun _ r => (p, r).

(** [Date.now()], a whole number of milliseconds. *)
Definition Date_now : JS Z :=
  fun b r =>
    (Normal (clock b (ticks r)),
     {| ticks := S (ticks r); draws := draws r;
        localStorage := localStorage r |}).

(** [Math.random()] *)
Definition Math_random : JS fraction36 :=
  fun b r =>
    (Normal (entropy b (draws r)),
     {| ticks := ticks r; draws := S (draws r);
        localStorage := localStorage r |}).

(** [a || m], the right operand evaluated only when needed. *)
Definition js_or_lazy {A} `{ToBoolean A} (a : option A) (m : JS (option A))
  : JS (option A) :=
  if truthy a then ret a else m.

(** [localStorage.getItem(key)] *)
Definition localStorage_getItem (key : string) : JS (option stored) :=
  fun b r =>
    if storage_denied b then (Abrupt SecurityError, r)
    else (Normal (localStorage r !! key), r).

(** [localStorage.setItem(key, text)] *)
Definition localStorage_setItem (key : string) (text : stored) : JS unit :=
  fun b r =>
    if storage_denied b then (Abrupt SecurityError, r)
    else if storage_quota b text
    then (Normal tt,
          {| ticks := ticks r; draws := draws r;
             localStorage := <[key := text]> (localStorage r) |})
    else (Abrupt QuotaExceededError, r).

(** [localStorage.removeItem(key)] *)
Definition localStorage_removeItem (key : string) : JS unit :=
  fun b r =>
    if storage_denied b then (Abrupt SecurityError, r)
    else (Normal tt,
          {| ticks := ticks r; draws := draws r;
             localStorage := delete key (localStorage r) |}).

(** What JSON keeps of a number: [JSON.stringify] writes [NaN] and the
    infinities as [null]. *)
Definition JSON_number (n : option number) : option number :=
  match n with
  | Some (Fin q) => Some (Fin q)
  | Some PosInf | Some NegInf | Some NaN | None => None
  end.

(** What JSON keeps of the tracked data: strings and booleans as they
    are; a property that is [undefined] is left out, and is [undefined]
    again when the text is read. *)
Definition JSON_data (d : UserTrackingData) : UserTrackingData :=
  {| userAgent := userAgent d;
     language := language d;
     platform := platform d;
     cookieEnabled := cookieEnabled d;
     doNotTrack := doNotTrack d;
     screenWidth := JSON_number (screenWidth d);
     screenHeight := JSON_number (screenHeight d);
     viewportWidth := JSON_number (viewportWidth d);
     viewportHeight := JSON_number (viewportHeight d);
     colorDepth := JSON_number (colorDepth d);
     pixelRatio := JSON_number (pixelRatio d);
     connectionType := connectionType d;
     effectiveType := effectiveType d;
     downlink := JSON_number (downlink d);
     rtt := JSON_number (rtt d);
     ipAddress := ipAddress d;
     timezone := timezone d;
     sessionStartTime := JSON_number (sessionStartTime d);
     totalActiveTime := JSON_number (totalActiveTime d);
     lastActivityTime := JSON_number (lastActivityTime d);
     pageViews := JSON_number (pageViews d);
     clicks := JSON_number (clicks d);
     scrollDepth := JSON_number (scrollDepth d);
     mouseMovements := JSON_number (mouseMovements d);
     referrer := referrer d;
     currentUrl := currentUrl d;
     pageLoadTime := JSON_number (pageLoadTime d);
     isMobile := isMobile d;
     isTablet := isTablet d;
     isDesktop := isDesktop d;
     touchSupport := touchSupport d;
     sessionId := sessionId d;
     timestamp := JSON_number (timestamp d) |}.

Definition JSON_event (e : TrackingEvent) : TrackingEvent :=
  {| ev_type := ev_type e;
     ev_data := JSON_data (ev_data e);
     ev_timestamp := JSON_number (ev_timestamp e) |}.

Definition JSON_entry (e : StoredEntry) : StoredEntry :=
  {| se_trackingData := JSON_data (se_trackingData e);
     se_events := map JSON_event (se_events e);
     se_timestamp := JSON_number (se_timestamp e) |}.

(** The value a JSON text stands for: [JSON.parse(JSON.stringify(v))]. *)
Definition JSON_value (v : parsed) : parsed :=
  match v with
  | PArray entries => PArray (map JSON_entry entries)
  | PNull => PNull
  | POther => POther
  end.

(** [JSON.parse(text)] *)
Definition JSON_parse (text : stored) : JS parsed :=
  match text with
  | Serialized v => ret (JSON_value v)
  | Blank | Malformed => throw SyntaxError
  end.

(** [JSON.stringify(v)]: the text of what JSON keeps of [v]. *)
Definition JSON_stringify (v : parsed) : stored := Serialized (JSON_value v).

(** [fetch(url, ...)]: the promise is returned at once. *)
Definition fetch (b : Browser) (url : string) : Promise Response :=
  network b url.

(** [response.json()] *)
Definition Response_json (response : Response) : JS json :=
  match body response with
  | Some v => ret v
  | None => throw SyntaxError
  end.

(** [promise.catch(handler)]; [None] is the value [null]. *)
Definition Promise_catch {A} (p : Promise A) (handler : exn -> option A)
  : Promise (option A) :=
  match p with
  | Normal a => Normal (Some a)
  | Abrupt e => Normal (handler e)
  | Pending => Pending
  end.

(** An element of the array [Promise.allSettled] resolves to. *)
Inductive settled (A : Type) : Type :=
| fulfilled (value : A)
| rejected (reason : exn).

Arguments fulfilled {A} value.
Arguments rejected {A} reason.

(** [Promise.allSettled(promises)]: pending until every promise has
    settled, never rejected. *)
Fixpoint Promise_allSettled {A} (promises : list (Promise A))
  : Promise (list (settled A)) :=
  match promises with
  | [] => Normal []
  | p :: ps =>
      match p, Promise_allSettled ps with
      | Pending, _ | _, Pending => Pending
      | _, Abrupt e => Abrupt e
      | Normal a, Normal l => Normal (fulfilled a :: l)
      | Abrupt e, Normal l => Normal (rejected e :: l)
      end
  end.

(** ** TrackingUtils *)

(** *** generateSessionId *)

(** The text of a whole number, as a template literal prints it (below
    [1e21], where the exponent notation starts). *)
Definition Number_toString (z : Z) : string :=
  NilEmpty.string_of_int (Z.to_int z).

Definition digits36 : string := "0123456789abcdefghijklmnopqrstuvwxyz".

Definition digit36 (d : nat) : ascii :=
  match String.get (d mod 36) digits36 with
  | Some c => c
  | None => "0"%char
  end.

(** [x.toString(36)] for [x] in [[0,1)]. *)
Definition toString36 (x : fraction36) : string :=
  match x with
  | [] => "0"
  | _ => "0." ++ string_of_list_ascii (map digit36 x)
  end.

(** [s.substr(start, length)] *)
Definition substr (start len : nat) (s : string) : string :=
  substring start len s.



(** The two components of an identifier. *)
Definition session_id (time : Z) (random : string) : string :=
  Number_toString time ++ "-" ++ random.

Definition random_component (x : fraction36) : string :=
  substr 2 9 (toString36 x).

Definition generateSessionId : JS string :=
  now <- Date_now ;;
  x <- Math_random ;;
  ret (session_id now (random_component x)).

(** *** detectDeviceType *)

(** [/Android|webOS|iPhone|iPad|iPod|BlackBerry|IEMobile|Opera Mini/i] *)
Definition mobile_pattern : regex :=
  alternatives (Lit "Android")
    [Lit "webOS"; Lit "iPhone"; Lit "iPad"; Lit "iPod"; Lit "BlackBerry";
     Lit "IEMobile"; Lit "Opera Mini"].

(** [/iPad|Android(?=.*\bMobile\b)(?=.*\bSafari\b)/i] *)
Definition tablet_pattern : regex :=
  Alt (Lit "iPad")
      (Seq (Lit "Android")
           (Seq (LookAhead (Seq DotStar (whole_word "Mobile")))
                (LookAhead (Seq DotStar (whole_word "Safari"))))).

Record DeviceType : Type := {
  dt_isMobile : bool;
  dt_isTablet : bool;
  dt_isDesktop : bool;
  dt_touchSupport : bool
}.

Definition detectDeviceType (b : Browser) (userAgent : string)
  : DeviceType :=
  let isMobile := test true mobile_pattern userAgent in
  let isTablet := test true tablet_pattern userAgent in
  let isDesktop := negb isMobile && negb isTablet in
  {| dt_isMobile := isMobile;
     dt_isTablet := isTablet;
     dt_isDesktop := isDesktop;
     dt_touchSupport := window_ontouchstart b |}.

(** *** getConnectionInfo *)

Record ConnectionInfo : Type := {
  ci_connectionType : option string;
  ci_effectiveType : option string;
  ci_downlink : option number;
  ci_rtt : option number
}.

Definition getConnectionInfo (b : Browser) : ConnectionInfo :=
  match navigator_connection b with
  | Some connection =>
      {| ci_connectionType :=
           ni_effectiveType connection ||| ni_type connection;
         ci_effectiveType := ni_effectiveType connection;
         ci_downlink := ni_downlink connection;
         ci_rtt := ni_rtt connection |}
  | None =>
      {| ci_connectionType := None; ci_effectiveType := None;
         ci_downlink := None; ci_rtt := None |}
  end.

(** *** getIPAddress *)

Definition ipify : string := "https://api.ipify.org?format=json".

(** [data.ip] *)
Definition get_ip (data : json) : JS (option string) :=
  match data with
  | JsonValue ip => ret ip
  | JsonNull => throw TypeError
  end.

Definition getIPAddress : JS (option string) :=
  try_catch
    (b <- browser ;;
     response <- await (fetch b ipify) ;;
     data <- Response_json response ;;
     get_ip data)
    (fun error => ret None).

(** *** getPageLoadTime *)

Definition getPageLoadTime (b : Browser) : option number :=
  match window_performance_timing b with
  | Some timing => Some (sub (loadEventEnd timing) (navigationStart timing))
  | None => None
  end.

(** *** calculateScrollDepth *)

(** The division and the multiplication round; [100] is the binary64
    number 100. *)
Definition calculateScrollDepth (b : Browser) : Float64.float64 :=
  let scrollTop :=
    js_or_value (window_pageYOffset b) (documentElement_scrollTop b) in
  let docHeight :=
    Float64.sub (documentElement_scrollHeight b) (window_innerHeight b) in
  Float64.mul (Float64.div scrollTop docHeight) (Float64.of_Z 100).

(** *** formatTrackingData *)

Definition formatTrackingData (data : UserTrackingData)
  : JS UserTrackingData :=
  b <- browser ;;
  let connection := getConnectionInfo b in
  sessionStartTime' <-
    js_or_lazy (sessionStartTime data)
               (now <- Date_now ;; ret (Some (int now))) ;;
  lastActivityTime' <-
    js_or_lazy (lastActivityTime data)
               (now <- Date_now ;; ret (Some (int now))) ;;
  sessionId' <-
    js_or_lazy (sessionId data)
               (id <- generateSessionId ;; ret (Some id)) ;;
  timestamp' <-
    js_or_lazy (timestamp data)
               (now <- Date_now ;; ret (Some (int now))) ;;
  ret {|
    (* browser *)
    userAgent := userAgent data ||| Some (navigator_userAgent b);
    language := language data ||| Some (navigator_language b);
    platform := platform data ||| Some (navigator_platform b);
    cookieEnabled :=
      cookieEnabled data ??? Some (navigator_cookieEnabled b);
    doNotTrack := doNotTrack data ??? navigator_doNotTrack b;
    (* screen *)
    screenWidth := screenWidth data ||| Some (screen_width b);
    screenHeight := screenHeight data ||| Some (screen_height b);
    viewportWidth := viewportWidth data ||| Some (window_innerWidth b);
    viewportHeight :=
      viewportHeight data
      ||| Some (Float64.to_number (window_innerHeight b));
    colorDepth := colorDepth data ||| Some (screen_colorDepth b);
    pixelRatio := pixelRatio data ||| Some (window_devicePixelRatio b);
    (* connection: the spread of getConnectionInfo() *)
    connectionType := ci_connectionType connection;
    effectiveType := ci_effectiveType connection;
    downlink := ci_downlink connection;
    rtt := ci_rtt connection;
    (* location *)
    ipAddress := ipAddress data;
    timezone := timezone data ||| Some (intl_timeZone b);
    (* time *)
    sessionStartTime := sessionStartTime';
    totalActiveTime := totalActiveTime data ||| Some (int 0);
    lastActivityTime := lastActivityTime';
    (* interactions *)
    pageViews := pageViews data ||| Some (int 1);
    clicks := clicks data ||| Some (int 0);
    scrollDepth := scrollDepth data ||| Some (int 0);
    mouseMovements := mouseMovements data ||| Some (int 0);
    (* page *)
    referrer := referrer data ||| Some (document_referrer b);
    currentUrl := currentUrl data ||| Some (window_location_href b);
    pageLoadTime := pageLoadTime data ||| getPageLoadTime b;
    (* device *)
    isMobile :=
      isMobile data
      ??? Some (dt_isMobile (detectDeviceType b (navigator_userAgent b)));
    isTablet :=
      isTablet data
      ??? Some (dt_isTablet (detectDeviceType b (navigator_userAgent b)));
    isDesktop :=
      isDesktop data
      ??? Some (dt_isDesktop (detectDeviceType b (navigator_userAgent b)));
    touchSupport := touchSupport data ??? Some (window_ontouchstart b);
    (* the rest *)
    sessionId := sessionId';
    timestamp := timestamp'
  |}.

(** *** saveToLocalStorage, getFromLocalStorage, clearLocalStorage *)

(** [data.push(entry)]: reading [push] of [null] throws before the
    argument is evaluated; a value that is not an array has no [push] to
    call, which is found out after the argument is evaluated. *)
Definition Array_push (data : parsed) (entry : JS StoredEntry) : JS parsed :=
  match data with
  | PArray entries => e <- entry ;; ret (PArray (entries ++ [e]))
  | PNull => throw TypeError
  | POther => entry ;;; throw TypeError
  end.

Definition saveToLocalStorage (trackingData : UserTrackingData)
           (events : list TrackingEvent) : JS bool :=
  try_catch
    (existingData <- localStorage_getItem "trackingData" ;;
     data <- match existingData with
             | Some text =>
                 if to_boolean text then JSON_parse text
                 else ret (PArray [])
             | None => ret (PArray [])
             end ;;
     data' <- Array_push data
                (now <- Date_now ;;
                 ret {| se_trackingData := trackingData;
                        se_events := events;
                        se_timestamp := Some (int now) |}) ;;
     localStorage_setItem "trackingData" (JSON_stringify data') ;;;
     ret true)
    (fun error => ret false).

Definition getFromLocalStorage : JS parsed :=
  try_catch
    (data <- localStorage_getItem "trackingData" ;;
     match data with
     | Some text =>
         if to_boolean text then JSON_parse text else ret (PArray [])
     | None => ret (PArray [])
     end)
    (fun error => ret (PArray [])).

Definition clearLocalStorage : JS bool :=
  try_catch
    (localStorage_removeItem "trackingData" ;;; ret true)
    (fun error => ret false).

(** *** sendToMultipleEndpoints *)

Record EndpointResult : Type := {
  er_endpoint : option string;
  er_success : bool;
  er_response : option Response
}.

(** The body of each request is [JSON.stringify(data)], which does not
    throw on this data; how a request settles is the network's affair. *)
Definition sendToMultipleEndpoints
           (data : UserTrackingData * list TrackingEvent)
           (endpoints : list string) : JS (list EndpointResult) :=
  b <- browser ;;
  let promises :=
    map (fun endpoint => Promise_catch (fetch b endpoint) (fun error => None))
        endpoints in
  results <- await (Promise_allSettled promises) ;;
  ret (imap
         (fun index result =>
            {| er_endpoint := endpoints !! index;
               er_success :=
                 match result with
                 | fulfilled (Some _) => true
                 | _ => false
                 end;
               er_response :=
                 match result with
                 | fulfilled value => value
                 | rejected _ => None
                 end |})
         results).

(** What [fetch(endpoint).catch(error => null)] settles to. *)
Definition settles_to (b : Browser) (endpoint : string)
  : settled (option Response) :=
  match fetch b endpoint with
  | Normal response => fulfilled (Some response)
  | Abrupt _ | Pending => fulfilled None
  end.

(** *** validateTrackingData *)

(** A property value. *)
Inductive value : Type :=
| Str (s : string)
| Num (n : number)
| Bool (b : bool).

#[global] Instance value_to_boolean : ToBoolean value :=
  fun v =>
    match v with
    | Str s => to_boolean s
    | Num n => to_boolean n
    | Bool b => to_boolean b
    end.

(** [keyof UserTrackingData] *)
Inductive key : Type :=
| k_userAgent
| k_language
| k_platform
| k_cookieEnabled
| k_doNotTrack
| k_screenWidth
| k_screenHeight
| k_viewportWidth
| k_viewportHeight
| k_colorDepth
| k_pixelRatio
| k_connectionType
| k_effectiveType
| k_downlink
| k_rtt
| k_ipAddress
| k_timezone
| k_sessionStartTime
| k_totalActiveTime
| k_lastActivityTime
| k_pageViews
| k_clicks
| k_scrollDepth
| k_mouseMovements
| k_referrer
| k_currentUrl
| k_pageLoadTime
| k_isMobile
| k_isTablet
| k_isDesktop
| k_touchSupport
| k_sessionId
| k_timestamp.

(** [data[field]] *)
Definition get (data : UserTrackingData) (field : key) : option value :=
  match field with
  | k_userAgent => Str <$> userAgent data
  | k_language => Str <$> language data
  | k_platform => Str <$> platform data
  | k_cookieEnabled => Bool <$> cookieEnabled data
  | k_doNotTrack => Str <$> doNotTrack data
  | k_screenWidth => Num <$> screenWidth data
  | k_screenHeight => Num <$> screenHeight data
  | k_viewportWidth => Num <$> viewportWidth data
  | k_viewportHeight => Num <$> viewportHeight data
  | k_colorDepth => Num <$> colorDepth data
  | k_pixelRatio => Num <$> pixelRatio data
  | k_connectionType => Str <$> connectionType data
  | k_effectiveType => Str <$> effectiveType data
  | k_downlink => Num <$> downlink data
  | k_rtt => Num <$> rtt data
  | k_ipAddress => Str <$> ipAddress data
  | k_timezone => Str <$> timezone data
  | k_sessionStartTime => Num <$> sessionStartTime data
  | k_totalActiveTime => Num <$> totalActiveTime data
  | k_lastActivityTime => Num <$> lastActivityTime data
  | k_pageViews => Num <$> pageViews data
  | k_clicks => Num <$> clicks data
  | k_scrollDepth => Num <$> scrollDepth data
  | k_mouseMovements => Num <$> mouseMovements data
  | k_referrer => Str <$> referrer data
  | k_currentUrl => Str <$> currentUrl data
  | k_pageLoadTime => Num <$> pageLoadTime data
  | k_isMobile => Bool <$> isMobile data
  | k_isTablet => Bool <$> isTablet data
  | k_isDesktop => Bool <$> isDesktop data
  | k_touchSupport => Bool <$> touchSupport data
  | k_sessionId => Str <$> sessionId data
  | k_timestamp => Num <$> timestamp data
  end.

Definition requiredFields : list key :=
  [k_userAgent; k_sessionId; k_timestamp; k_currentUrl].

Definition validateTrackingData (data : UserTrackingData) : bool :=
  forallb (fun field => bool_decide (is_Some (get data field)))
          requiredFields.

(** How [formatTrackingData] fills a field of the snapshot. *)
Inductive merge : Type :=
| ByOr        (* [data.field || fallback] *)
| ByNullish   (* [data.field ?? fallback] *)
| Copied      (* [data.field] *)
| Spread.     (* from [...this.getConnectionInfo()] *)

Definition merged (field : key) : merge :=
  match field with
  | k_cookieEnabled | k_doNotTrack
  | k_isMobile | k_isTablet | k_isDesktop | k_touchSupport => ByNullish
  | k_ipAddress => Copied
  | k_connectionType | k_effectiveType | k_downlink | k_rtt => Spread
  | _ => ByOr
  end.

(** *** DEFAULT_TRACKING_CONFIG *)

Record TrackingConfig : Type := {
  autoSendInterval : Z;
  endpoints : list string;
  trackClicks : bool;
  trackScroll : bool;
  trackMouseMovements : bool;
  trackFocus : bool;
  scrollThrottle : Z;
  mouseThrottle : Z;
  enableLocalStorage : bool;
  maxLocalStorageItems : nat
}.

Definition DEFAULT_TRACKING_CONFIG : TrackingConfig :=
  {| autoSendInterval := 30000;
     endpoints := ["/api/tracking"];
     trackClicks := true;
     trackScroll := true;
     trackMouseMovements := true;
     trackFocus := true;
     scrollThrottle := 100;
     mouseThrottle := 1000;
     enableLocalStorage := true;
     maxLocalStorageItems := 50 |}.

(** ** What the specification asks for

    These definitions follow the words of the specification, not the
    source; the theorems below compare the source with them. *)



(** Local store: append, then drop the oldest entries above the cap. *)
Definition spec_append {A} (cap : nat) (entries : list A) (e : A) : list A :=
  let all := (entries ++ [e])%list in
  drop (List.length all - cap) all.

(** Delivery: a submission succeeds when the endpoint answers with a
    success status. *)
Definition spec_submission_succeeded (p : Promise Response) : bool :=
  match p with
  | Normal response =>
      (200 <=? status response)%nat && (status response <? 300)%nat
  | Abrupt _ | Pending => false
  end.

(** Device class: exactly one flag is set. *)
Definition exactly_one (a b c : bool) : bool :=
  match a, b, c with
  | true, false, false | false, true, false | false, false, true => true
  | _, _, _ => false
  end.

(** ** Callers and environments used by the examples *)

(** [n] calls of [saveToLocalStorage], one after the other. *)
Fixpoint save_repeatedly (n : nat) (trackingData : UserTrackingData)
         (events : list TrackingEvent) : JS unit :=
  match n with
  | O => ret tt
  | S n' =>
      saveToLocalStorage trackingData events ;;;
      save_repeatedly n' trackingData events
  end.

(** [n] calls of [generateSessionId] in a loop. *)
Fixpoint generate_ids (n : nat) : JS (list string) :=
  match n with
  | O => ret []
  | S n' =>
      id <- generateSessionId ;;
      ids <- generate_ids n' ;;
      ret (id :: ids)
  end.


(** The array that the text under the [trackingData] key stands for, if
    it stands for one. *)
Definition stored_entries (r : Run) : option (list StoredEntry) :=
  match localStorage r !! "trackingData" with
  | Some (Serialized (PArray entries)) => Some (map JSON_entry entries)
  | _ => None
  end.

Definition fresh : Run :=
  {| ticks := 0; draws := 0; localStorage := ∅ |}.

Definition ipad_userAgent : string :=
  "Mozilla/5.0 (iPad; CPU OS 13_3 like Mac OS X) AppleWebKit/605.1.15 (KHTML, like Gecko) Version/13.0 Mobile/15E148 Safari/604.1".

Definition android_phone_userAgent : string :=
  "Mozilla/5.0 (Linux; Android 10; Pixel 3) AppleWebKit/537.36 (KHTML, like Gecko) Chrome/88.0.4324.93 Mobile Safari/537.36".

Definition android_tablet_userAgent : string :=
  "Mozilla/5.0 (Linux; Android 9; SM-T510) AppleWebKit/537.36 (KHTML, like Gecko) Chrome/88.0.4324.93 Safari/537.36".

(** An Android user agent without the word Mobile, with the word iPad. *)
Definition ipad_like_userAgent : string :=
  "Mozilla/5.0 (Linux; Android 9; iPad-like) Safari/537.36".

Definition desktop_userAgent : string :=
  "Mozilla/5.0 (Windows NT 10.0; Win64; x64) AppleWebKit/537.36 (KHTML, like Gecko) Chrome/88.0.4324.93 Safari/537.36".

(** A browser, given its user agent, its scroll geometry, its network and
    its storage. *)
Definition a_browser (userAgent : string)
           (pageYOffset scrollHeight innerHeight : Z)
           (net : string -> completion Response)
           (denied : bool) (quota : stored -> bool) : Browser :=
  {| navigator_userAgent := userAgent;
     navigator_language := "es-AR";
     navigator_platform := "Win32";
     navigator_cookieEnabled := true;
     navigator_doNotTrack := None;
     navigator_connection := None;
     screen_width := int 1920;
     screen_height := int 1080;
     screen_colorDepth := int 24;
     window_innerWidth := int 1280;
     window_innerHeight := Float64.of_Z innerHeight;
     window_devicePixelRatio := int 1;
     window_pageYOffset := Float64.of_Z pageYOffset;
     window_ontouchstart := false;
     window_location_href := "https://landing.example/";
     window_performance_timing := None;
     document_referrer := "https://www.google.com/";
     documentElement_scrollTop := Float64.of_Z pageYOffset;
     documentElement_scrollHeight := Float64.of_Z scrollHeight;
     intl_timeZone := "America/Argentina/Buenos_Aires";
     clock := fun k => (1700000000000 + Z.of_nat k)%Z;
     entropy := fun k => [k; 7; 30; 11];
     network := net;
     storage_denied := denied;
     storage_quota := quota |}.

Definition offline : string -> completion Response :=
  fun _ => Abrupt NetworkFailure.

Definition unlimited : stored -> bool := fun _ => true.

Definition desktop_browser : Browser :=
  a_browser desktop_userAgent 0 3000 800 offline false unlimited.

Definition ipad_browser : Browser :=
  a_browser ipad_userAgent 0 3000 800 offline false unlimited.

(** A page as tall as the viewport. *)
Definition short_page_browser : Browser :=
  a_browser desktop_userAgent 0 800 800 offline false unlimited.


(** A page of 3000 pixels in a viewport of 800, scrolled to 550. *)
Definition scrolled_browser : Browser :=
  a_browser desktop_userAgent 550 3000 800 offline false unlimited.


(** A page of 900 pixels in a viewport of 800, scrolled to 7. *)
Definition rounding_browser : Browser :=
  a_browser desktop_userAgent 7 900 800 offline false unlimited.

(** The IP service answers, [/api/tracking] answers 200, [/api/backup] answers 500,
    [/api/analytics] is unreachable, [/api/slow] never answers. *)
Definition some_network : string -> completion Response :=
  fun url =>
    if String.eqb url ipify
    then Normal {| status := 200;
                   body := Some (JsonValue (Some "203.0.113.7")) |}
    else if String.eqb url "/api/tracking"
    then Normal {| status := 200; body := Some (JsonValue None) |}
    else if String.eqb url "/api/backup"
    then Normal {| status := 500; body := None |}
    else if String.eqb url "/api/slow"
    then Pending
    else Abrupt NetworkFailure.

Definition online_browser : Browser :=
  a_browser desktop_userAgent 0 3000 800 some_network false unlimited.

Definition private_browser : Browser :=
  a_browser desktop_userAgent 0 3000 800 offline true unlimited.

Definition full_browser : Browser :=
  a_browser desktop_userAgent 0 3000 800 offline false (fun _ => false).

(** A quota that takes an array of two entries at most. *)
Definition two_entries : stored -> bool :=
  fun text =>
    match text with
    | Serialized (PArray entries) => (List.length entries <=? 2)%nat
    | _ => true
    end.

Definition small_browser : Browser :=
  a_browser desktop_userAgent 0 3000 800 offline false two_entries.

(** Overrides that supply a connection type and an empty referrer. *)
Definition some_overrides : UserTrackingData :=
  {| userAgent := None; language := None; platform := None;
     cookieEnabled := Some false; doNotTrack := None;
     screenWidth := None; screenHeight := None; viewportWidth := None;
     viewportHeight := None; colorDepth := None; pixelRatio := None;
     connectionType := Some "wifi"; effectiveType := None; downlink := None;
     rtt := None; ipAddress := Some "203.0.113.7"; timezone := None;
     sessionStartTime := None; totalActiveTime := None;
     lastActivityTime := None; pageViews := Some (int 3); clicks := None;
     scrollDepth := None; mouseMovements := None; referrer := Some "";
     currentUrl := None; pageLoadTime := None; isMobile := None;
     isTablet := None; isDesktop := None; touchSupport := None;
     sessionId := Some "abc"; timestamp := None |}.

(** Every request is answered with a page that is not JSON. *)
Definition captive_portal : string -> completion Response :=
  fun _ => Normal {| status := 200; body := None |}.

Definition captive_browser : Browser :=
  a_browser desktop_userAgent 0 3000 800 captive_portal false unlimited.

(** The same browser on another network. *)
Definition on_network (net : string -> completion Response) (b : Browser)
  : Browser :=
  {| navigator_userAgent := navigator_userAgent b;
     navigator_language := navigator_language b;
     navigator_platform := navigator_platform b;
     navigator_cookieEnabled := navigator_cookieEnabled b;
     navigator_doNotTrack := navigator_doNotTrack b;
     navigator_connection := navigator_connection b;
     screen_width := screen_width b;
     screen_height := screen_height b;
     screen_colorDepth := screen_colorDepth b;
     window_innerWidth := window_innerWidth b;
     window_innerHeight := window_innerHeight b;
     window_devicePixelRatio := window_devicePixelRatio b;
     window_pageYOffset := window_pageYOffset b;
     window_ontouchstart := window_ontouchstart b;
     window_location_href := window_location_href b;
     window_performance_timing := window_performance_timing b;
     document_referrer := document_referrer b;
     documentElement_scrollTop := documentElement_scrollTop b;
     documentElement_scrollHeight := documentElement_scrollHeight b;
     intl_timeZone := intl_timeZone b;
     clock := clock b;
     entropy := entropy b;
     network := net;
     storage_denied := storage_denied b;
     storage_quota := storage_quota b |}.

(** The lookup of the address fails: the request is rejected (network
    error, timeout), or the answer is not JSON, or it is JSON [null]. *)
Definition ip_lookup_fails (b : Browser) : bool :=
  match fetch b ipify with
  | Abrupt _ => true
  | Normal response =>
      match body response with
      | None | Some JsonNull => true
      | Some (JsonValue _) => false
      end
  | Pending => false
  end.

Definition an_event : TrackingEvent :=
  {| ev_type := click; ev_data := no_overrides;
     ev_timestamp := Some (int 1700000000000) |}.

(** ** The rest of TrackingUtils *)

(** *** getScreenInfo *)

Record ScreenInfo : Type := {
  si_screenWidth : number;
  si_screenHeight : number;
  si_viewportWidth : number;
  si_viewportHeight : number;
  si_colorDepth : number;
  si_pixelRatio : number
}.

Definition getScreenInfo (b : Browser) : ScreenInfo :=
  {| si_screenWidth := screen_width b;
     si_screenHeight := screen_height b;
     si_viewportWidth := window_innerWidth b;
     si_viewportHeight := Float64.to_number (window_innerHeight b);
     si_colorDepth := screen_colorDepth b;
     si_pixelRatio := window_devicePixelRatio b |}.

(** *** getBrowserInfo *)

Record BrowserInfo : Type := {
  bi_userAgent : string;
  bi_language : string;
  bi_platform : string;
  bi_cookieEnabled : bool;
  bi_doNotTrack : option string;
  bi_timezone : string
}.

Definition getBrowserInfo (b : Browser) : BrowserInfo :=
  {| bi_userAgent := navigator_userAgent b;
     bi_language := navigator_language b;
     bi_platform := navigator_platform b;
     bi_cookieEnabled := navigator_cookieEnabled b;
     bi_doNotTrack := navigator_doNotTrack b;
     bi_timezone := intl_timeZone b |}.

(** *** createEvent *)

(** [data] is [None] when the argument is left out: the default [{}]. *)
Definition createEvent (type : EventType) (data : option UserTrackingData)
  : JS TrackingEvent :=
  let data := default no_overrides data in
  now <- Date_now ;;
  ret {| ev_type := type; ev_data := data; ev_timestamp := Some (int now) |}.

(** One call of [createEvent] for each type, in order. *)
Fixpoint create_events (types : list EventType) : JS (list TrackingEvent) :=
  match types with
  | [] => ret []
  | type :: types' =>
      e <- createEvent type None ;;
      es <- create_events types' ;;
      ret (e :: es)
  end.

(** *** createTrackingHook *)

(** The hook made by the factory returns the empty object. *)
Definition createTrackingHook (config : option TrackingConfig)
  : unit -> UserTrackingData :=
  let config := default DEFAULT_TRACKING_CONFIG config in
  fun _ => no_overrides.

(** ** Vocabulary of the properties *)

(** A text with each character in its canonical form under the [i]
    flag. *)
Fixpoint canonical (s : string) : string :=
  match s with
  | EmptyString => EmptyString
  | String c s' => String (canonicalize true c) (canonical s')
  end.

(** Two positions that the [i] flag cannot tell apart. *)
Definition alike (p p' : option ascii) (s s' : string) : Prop :=
  option_map (canonicalize true) p = option_map (canonicalize true) p'
  /\ canonical s = canonical s'.

(** Two continuations that agree on such positions. *)
Definition alike_cont (k k' : cont) : Prop :=
  forall p p' s s', alike p p' s s' -> k p s = k' p' s'.

(** The word occurs in the text, whatever the case of the letters. *)
Definition occurs (w s : string) : Prop :=
  exists pre mid suf, s = pre ++ mid ++ suf /\ canonical mid = canonical w.





(** The alternatives of [mobile_pattern]. *)
Definition mobile_keywords : list string :=
  ["Android"; "webOS"; "iPhone"; "iPad"; "iPod"; "BlackBerry"; "IEMobile";
   "Opera Mini"].


(** The binary64 number is a zero, a finite number or an infinity of the
    given sign. *)
Definition signed (s : bool) (x : Float64.float64) : bool :=
  match x with
  | S754_zero s' | S754_infinity s' | S754_finite s' _ _ => Bool.eqb s s'
  | S754_nan => false
  end.

(** The entry [saveToLocalStorage] pushes when the clock reads [now]. *)
Definition entry_at (trackingData : UserTrackingData)
           (events : list TrackingEvent) (now : Z) : StoredEntry :=
  {| se_trackingData := trackingData;
     se_events := events;
     se_timestamp := Some (int now) |}.

(** The element of the result of [sendToMultipleEndpoints] for an
    endpoint whose request has settled. *)
Definition result_for (b : Browser) (endpoint : string) : EndpointResult :=
  {| er_endpoint := Some endpoint;
     er_success :=
       match fetch b endpoint with Normal _ => true | _ => false end;
     er_response :=
       match fetch b endpoint with
       | Normal response => Some response
       | Abrupt _ | Pending => None
       end |}.

(** The object literal of [formatTrackingData], once the four operands
    that may read the clock or the random source have their values. *)
Definition snapshot (data : UserTrackingData) (b : Browser)
           (sessionStartTime' lastActivityTime' : option number)
           (sessionId' : option string) (timestamp' : option number)
  : UserTrackingData :=
  {| userAgent := userAgent data ||| Some (navigator_userAgent b);
     language := language data ||| Some (navigator_language b);
     platform := platform data ||| Some (navigator_platform b);
     cookieEnabled :=
       cookieEnabled data ??? Some (navigator_cookieEnabled b);
     doNotTrack := doNotTrack data ??? navigator_doNotTrack b;
     screenWidth := screenWidth data ||| Some (screen_width b);
     screenHeight := screenHeight data ||| Some (screen_height b);
     viewportWidth := viewportWidth data ||| Some (window_innerWidth b);
     viewportHeight :=
       viewportHeight data
       ||| Some (Float64.to_number (window_innerHeight b));
     colorDepth := colorDepth data ||| Some (screen_colorDepth b);
     pixelRatio := pixelRatio data ||| Some (window_devicePixelRatio b);
     connectionType := ci_connectionType (getConnectionInfo b);
     effectiveType := ci_effectiveType (getConnectionInfo b);
     downlink := ci_downlink (getConnectionInfo b);
     rtt := ci_rtt (getConnectionInfo b);
     ipAddress := ipAddress data;
     timezone := timezone data ||| Some (intl_timeZone b);
     sessionStartTime := sessionStartTime';
     totalActiveTime := totalActiveTime data ||| Some (int 0);
     lastActivityTime := lastActivityTime';
     pageViews := pageViews data ||| Some (int 1);
     clicks := clicks data ||| Some (int 0);
     scrollDepth := scrollDepth data ||| Some (int 0);
     mouseMovements := mouseMovements data ||| Some (int 0);
     referrer := referrer data ||| Some (document_referrer b);
     currentUrl := currentUrl data ||| Some (window_location_href b);
     pageLoadTime := pageLoadTime data ||| getPageLoadTime b;
     isMobile :=
       isMobile data
       ??? Some (dt_isMobile (detectDeviceType b (navigator_userAgent b)));
     isTablet :=
       isTablet data
       ??? Some (dt_isTablet (detectDeviceType b (navigator_userAgent b)));
     isDesktop :=
       isDesktop data
       ??? Some (dt_isDesktop (detectDeviceType b (navigator_userAgent b)));
     touchSupport := touchSupport data ??? Some (window_ontouchstart b);
     sessionId := sessionId';
     timestamp := timestamp' |}.

(** 1 when the operand is falsy, so that its fallback is evaluated. *)
Definition falls_back {A} `{ToBoolean A} (a : option A) : nat :=
  if truthy a then 0 else 1.

(** The same browser with another [window.performance.timing]. *)
Definition with_timing (timing : option PerformanceTiming) (b : Browser)
  : Browser :=
  {| navigator_userAgent := navigator_userAgent b;
     navigator_language := navigator_language b;
     navigator_platform := navigator_platform b;
     navigator_cookieEnabled := navigator_cookieEnabled b;
     navigator_doNotTrack := navigator_doNotTrack b;
     navigator_connection := navigator_connection b;
     screen_width := screen_width b;
     screen_height := screen_height b;
     screen_colorDepth := screen_colorDepth b;
     window_innerWidth := window_innerWidth b;
     window_innerHeight := window_innerHeight b;
     window_devicePixelRatio := window_devicePixelRatio b;
     window_pageYOffset := window_pageYOffset b;
     window_ontouchstart := window_ontouchstart b;
     window_location_href := window_location_href b;
     window_performance_timing := timing;
     document_referrer := document_referrer b;
     documentElement_scrollTop := documentElement_scrollTop b;
     documentElement_scrollHeight := documentElement_scrollHeight b;
     intl_timeZone := intl_timeZone b;
     clock := clock b;
     entropy := entropy b;
     network := network b;
     storage_denied := storage_denied b;
     storage_quota := storage_quota b |}.

(** A page whose load event has not ended: [loadEventEnd] is still 0. *)
Definition loading_browser : Browser :=
  with_timing
    (Some {| loadEventEnd := int 0; navigationStart := int 1700000000000 |})
    desktop_browser.

(** A viewport taller than the page, scrolled to 40. *)
Definition tall_viewport_browser : Browser :=
  a_browser desktop_userAgent 40 600 800 offline false unlimited.

(** A page as tall as the viewport, scrolled to 40. *)
Definition bounced_browser : Browser :=
  a_browser desktop_userAgent 40 800 800 offline false unlimited.

(** The fields whose fallback reads the clock or the random source. *)
Definition lazy (field : key) : bool :=
  match field with
  | k_sessionStartTime | k_lastActivityTime | k_sessionId | k_timestamp => true
  | _ => false
  end.

(** The fields a snapshot may lack. *)
Definition optional (field : key) : bool :=
  match field with
  | k_doNotTrack | k_connectionType | k_effectiveType | k_downlink | k_rtt
  | k_ipAddress | k_pageLoadTime => true
  | _ => false
  end.

(** What a field that is not [lazy] falls back to: the answer of the
    inspection functions, or a constant. *)
Definition fallback (b : Browser) (field : key) : option value :=
  match field with
  | k_userAgent => Some (Str (bi_userAgent (getBrowserInfo b)))
  | k_language => Some (Str (bi_language (getBrowserInfo b)))
  | k_platform => Some (Str (bi_platform (getBrowserInfo b)))
  | k_cookieEnabled => Some (Bool (bi_cookieEnabled (getBrowserInfo b)))
  | k_doNotTrack => Str <$> bi_doNotTrack (getBrowserInfo b)
  | k_screenWidth => Some (Num (si_screenWidth (getScreenInfo b)))
  | k_screenHeight => Some (Num (si_screenHeight (getScreenInfo b)))
  | k_viewportWidth => Some (Num (si_viewportWidth (getScreenInfo b)))
  | k_viewportHeight => Some (Num (si_viewportHeight (getScreenInfo b)))
  | k_colorDepth => Some (Num (si_colorDepth (getScreenInfo b)))
  | k_pixelRatio => Some (Num (si_pixelRatio (getScreenInfo b)))
  | k_connectionType => Str <$> ci_connectionType (getConnectionInfo b)
  | k_effectiveType => Str <$> ci_effectiveType (getConnectionInfo b)
  | k_downlink => Num <$> ci_downlink (getConnectionInfo b)
  | k_rtt => Num <$> ci_rtt (getConnectionInfo b)
  | k_ipAddress => None
  | k_timezone => Some (Str (bi_timezone (getBrowserInfo b)))
  | k_totalActiveTime => Some (Num (int 0))
  | k_pageViews => Some (Num (int 1))
  | k_clicks => Some (Num (int 0))
  | k_scrollDepth => Some (Num (int 0))
  | k_mouseMovements => Some (Num (int 0))
  | k_referrer => Some (Str (document_referrer b))
  | k_currentUrl => Some (Str (window_location_href b))
  | k_pageLoadTime => Num <$> getPageLoadTime b
  | k_isMobile =>
      Some (Bool (dt_isMobile (detectDeviceType b (navigator_userAgent b))))
  | k_isTablet =>
      Some (Bool (dt_isTablet (detectDeviceType b (navigator_userAgent b))))
  | k_isDesktop =>
      Some (Bool (dt_isDesktop (detectDeviceType b (navigator_userAgent b))))
  | k_touchSupport => Some (Bool (window_ontouchstart b))
  | k_sessionStartTime | k_lastActivityTime | k_sessionId | k_timestamp =>
      None
  end.

(** What a field falls back to in a call made in the state [r]: for the
    four [lazy] fields, the reading of the clock at its turn (one reading
    for each of them that falls back, in the order of the object
    literal), and a new identifier for sessionId. *)
Definition fallback_at (data : UserTrackingData) (b : Browser) (r : Run)
           (field : key) : option value :=
  let n1 := falls_back (sessionStartTime data) in
  let n2 := falls_back (lastActivityTime data) in
  let n3 := falls_back (sessionId data) in
  match field with
  | k_sessionStartTime => Some (Num (int (clock b (ticks r))))
  | k_lastActivityTime => Some (Num (int (clock b (ticks r + n1))))
  | k_sessionId =>
      Some (Str (session_id (clock b (ticks r + n1 + n2))
                            (random_component (entropy b (draws r)))))
  | k_timestamp => Some (Num (int (clock b (ticks r + n1 + n2 + n3))))
  | _ => fallback b field
  end.

(** Overrides that set the user agent only: an iPad's. *)
Definition ipad_override : UserTrackingData :=
  {| userAgent := Some ipad_userAgent; language := None; platform := None;
     cookieEnabled := None; doNotTrack := None;
     screenWidth := None; screenHeight := None; viewportWidth := None;
     viewportHeight := None; colorDepth := None; pixelRatio := None;
     connectionType := None; effectiveType := None; downlink := None;
     rtt := None; ipAddress := None; timezone := None;
     sessionStartTime := None; totalActiveTime := None;
     lastActivityTime := None; pageViews := None; clicks := None;
     scrollDepth := None; mouseMovements := None; referrer := None;
     currentUrl := None; pageLoadTime := None; isMobile := None;
     isTablet := None; isDesktop := None; touchSupport := None;
     sessionId := None; timestamp := None |}.

(** The entries [saveToLocalStorage] finds under the key, where it can
    push: none when the key is absent or holds the empty string. *)
Definition holds (r : Run) (entries : list StoredEntry) : Prop :=
  match localStorage r !! "trackingData" with
  | None | Some Blank => entries = []
  | Some (Serialized (PArray found)) => entries = map JSON_entry found
  | Some Malformed | Some (Serialized PNull) | Some (Serialized POther) =>
      False
  end.

(** The value under the [trackingData] key cannot be pushed to: it is
    not JSON, or it is JSON but not an array. *)
Definition poisoned (r : Run) : Prop :=
  match localStorage r !! "trackingData" with
  | Some Malformed | Some (Serialized PNull) | Some (Serialized POther) =>
      True
  | _ => False
  end.

(** A store left with a number under the key by another script. *)
Definition poisoned_run : Run :=
  {| ticks := 0; draws := 0;
     localStorage := {[ "trackingData" := Serialized POther;
                        "theme" := Malformed ]} |}.

(** Tracking data whose scroll depth is NaN, as [calculateScrollDepth]
    gives it on a page as tall as the viewport. *)
Definition not_a_number : UserTrackingData :=
  {| userAgent := None; language := None; platform := None;
     cookieEnabled := None; doNotTrack := None;
     screenWidth := None; screenHeight := None; viewportWidth := None;
     viewportHeight := None; colorDepth := None; pixelRatio := None;
     connectionType := None; effectiveType := None; downlink := None;
     rtt := None; ipAddress := None; timezone := None;
     sessionStartTime := None; totalActiveTime := None;
     lastActivityTime := None; pageViews := None; clicks := None;
     scrollDepth :=
       Some (Float64.to_number (calculateScrollDepth short_page_browser));
     mouseMovements := None; referrer := None;
     currentUrl := None; pageLoadTime := None; isMobile := None;
     isTablet := None; isDesktop := None; touchSupport := None;
     sessionId := None; timestamp := None |}.

(** A store that two saves have filled. *)
Definition two_saved : Run :=
  {| ticks := 2; draws := 0;
     localStorage :=
       {[ "trackingData" :=
            JSON_stringify
              (PArray [entry_at no_overrides [an_event] 1700000000000;
                       entry_at no_overrides [an_event] 1700000000001]) ]} |}.

(** Every request to the endpoints settles. *)
Definition settled_all (b : Browser) (endpoints : list string) : bool :=
  forallb (fun endpoint =>
             match fetch b endpoint with Pending => false | _ => true end)
          endpoints.

(** ** The testimonial carousel of the landing page *)

Module Carousel.

Record Testimonial : Type := {
  name : string;
  age : Z;
  location : string;
  quote : string;
  rating : Z
}.

Definition testimonials : list Testimonial :=
  [ {| name := "Carlos"; age := 32; location := "Buenos Aires";
       quote := "La experiencia premium superó todas mis expectativas. Los beneficios son realmente exclusivos.";
       rating := 5 |};
    {| name := "Valentina"; age := 28; location := "Córdoba";
       quote := "Me encantó la atención personalizada y las recompensas especiales. ¡Totalmente recomendado!";
       rating := 5 |};
    {| name := "Martín"; age := 35; location := "Mendoza";
       quote := "La plataforma es increíblemente intuitiva y los bonos son generosos. Una experiencia única.";
       rating := 5 |};
    {| name := "Lucía"; age := 30; location := "Rosario";
       quote := "Los eventos exclusivos y la comunidad son lo mejor. ¡Me siento parte de algo especial!";
       rating := 5 |};
    {| name := "Facundo"; age := 27; location := "Tucumán";
       quote := "La atención al cliente es excepcional y los beneficios VIP son realmente impresionantes.";
       rating := 5 |} ].

Definition testimonials_length : Z := Z.of_nat (List.length testimonials).

(** The updater [handlePrev] gives to [setCurrentIndex]. *)
Definition handlePrev (prevIndex : Z) : Z :=
  if (prevIndex =? 0)%Z then (testimonials_length - 1)%Z
  else (prevIndex - 1)%Z.

(** The updater [handleNext] gives to [setCurrentIndex]. *)
Definition handleNext (prevIndex : Z) : Z :=
  if (prevIndex =? testimonials_length - 1)%Z then 0%Z
  else (prevIndex + 1)%Z.

(** What the user can do: the two arrows, and the dot of a testimonial. *)
Inductive action : Type :=
| Prev
| Next
| Dot (index : nat).

(** The dots are made by [testimonials.map]: one for each index. *)
Definition possible (a : action) : Prop :=
  match a with
  | Dot index => (index < List.length testimonials)%nat
  | Prev | Next => True
  end.

Definition step (currentIndex : Z) (a : action) : Z :=
  match a with
  | Prev => handlePrev currentIndex
  | Next => handleNext currentIndex
  | Dot index => Z.of_nat index
  end.

(** The index after a run of actions, from [useState(0)]. *)
Definition run (actions : list action) : Z := fold_left step actions 0%Z.

End Carousel.

(** * Properties *)

(** ** Regular expressions *)

Module RegExpFacts.

Lemma match_lit_accept i l : forall prev s k,
  match_lit i l prev s k = true -> match_lit i l prev s accept = true.
Proof.
  induction l as [|a l IH]; intros prev s k H; simpl in *.
  - reflexivity.
  - destruct s as [|c s]; [discriminate|].
    destruct (char_match i a c); [eauto|discriminate].
Qed.

Lemma search_Alt i r1 r2 : forall prev s,
  search i (Alt r1 r2) prev s = search i r1 prev s || search i r2 prev s.
Proof.
  intros prev s; revert prev.
  induction s as [|c s IH]; intros prev; simpl.
  - now rewrite !orb_false_r.
  - rewrite IH.
    destruct (matches i r1 prev (String c s) accept),
             (matches i r2 prev (String c s) accept),
             (search i r1 (Some c) s), (search i r2 (Some c) s);
      reflexivity.
Qed.

(** A match of [l] followed by more is a match of [l]. *)
Lemma search_Seq_Lit i l r : forall prev s,
  search i (Seq (Lit l) r) prev s = true -> search i (Lit l) prev s = true.
Proof.
  intros prev s; revert prev.
  induction s as [|c s IH]; intros prev; simpl; intros H.
  - rewrite orb_false_r in *. eauto using match_lit_accept.
  - apply orb_true_iff in H as [H|H].
    + apply match_lit_accept in H. now rewrite H.
    + rewrite (IH _ H). apply orb_true_r.
Qed.

Lemma test_Alt i r1 r2 s :
  test i (Alt r1 r2) s = test i r1 s || test i r2 s.
Proof. apply search_Alt. Qed.

End RegExpFacts.

(** ** detectDeviceType *)

(** Whatever the tablet pattern matches, the mobile pattern matches. *)
Lemma tablet_pattern_mobile_pattern (ua : string) :
  test true tablet_pattern ua = true -> test true mobile_pattern ua = true.
Proof.
  unfold tablet_pattern, mobile_pattern, alternatives.
  rewrite !RegExpFacts.test_Alt.
  intros H. apply orb_true_iff in H as [H|H].
  - rewrite H. now rewrite !orb_true_r.
  - apply RegExpFacts.search_Seq_Lit in H. unfold test. now rewrite H.
Qed.

Example detect_ipad :
  detectDeviceType desktop_browser ipad_userAgent
  = {| dt_isMobile := true; dt_isTablet := true; dt_isDesktop := false;
       dt_touchSupport := false |}.
Proof. vm_compute. reflexivity. Qed.

Example detect_android_phone :
  detectDeviceType desktop_browser android_phone_userAgent
  = {| dt_isMobile := true; dt_isTablet := true; dt_isDesktop := false;
       dt_touchSupport := false |}.
Proof. vm_compute. reflexivity. Qed.

Example detect_android_tablet :
  detectDeviceType desktop_browser android_tablet_userAgent
  = {| dt_isMobile := true; dt_isTablet := false; dt_isDesktop := false;
       dt_touchSupport := false |}.
Proof. vm_compute. reflexivity. Qed.

Example detect_desktop :
  detectDeviceType desktop_browser desktop_userAgent
  = {| dt_isMobile := false; dt_isTablet := false; dt_isDesktop := true;
       dt_touchSupport := false |}.
Proof. vm_compute. reflexivity. Qed.

(** C1, as stated, fails on an iPad: the user agent matches the tablet
    pattern, and [detectDeviceType] reports it as a tablet and as a mobile
    at once. *)
Lemma detectDeviceType_tablet_is_also_mobile :
  ~ (test true tablet_pattern ipad_userAgent = true ->
     dt_isTablet (detectDeviceType ipad_browser ipad_userAgent) = true
     /\ dt_isMobile (detectDeviceType ipad_browser ipad_userAgent) = false
     /\ dt_isDesktop (detectDeviceType ipad_browser ipad_userAgent) = false).
Proof.
  intros H.
  assert (M : test true tablet_pattern ipad_userAgent = true)
    by (vm_compute; reflexivity).
  destruct (H M) as (_ & Mobile & _).
  vm_compute in Mobile. discriminate.
Qed.

(** C1, amended: for every user agent matched by the tablet pattern,
    [detectDeviceType] returns isTablet = true, isMobile = true and
    isDesktop = false. The two patterns are tested independently, and
    every match of the tablet pattern (iPad, or Android followed by the
    words Mobile and Safari) is a match of the mobile pattern. *)
Theorem detectDeviceType_tablet (b : Browser) (ua : string) :
  test true tablet_pattern ua = true ->
  dt_isTablet (detectDeviceType b ua) = true
  /\ dt_isMobile (detectDeviceType b ua) = true
  /\ dt_isDesktop (detectDeviceType b ua) = false.
Proof.
  intros T. pose proof (tablet_pattern_mobile_pattern ua T) as M.
  unfold detectDeviceType; simpl. rewrite T, M. auto.
Qed.

Lemma detectDeviceType_tablet_witness :
  dt_isTablet (detectDeviceType ipad_browser ipad_userAgent) = true
  /\ dt_isMobile (detectDeviceType ipad_browser ipad_userAgent) = true
  /\ dt_isDesktop (detectDeviceType ipad_browser ipad_userAgent) = false.
Proof.
  apply (detectDeviceType_tablet ipad_browser ipad_userAgent).
  vm_compute. reflexivity.
Defined.

(** ** formatTrackingData *)

(** Runs [formatTrackingData] on [data]: one case for each operand of
    [||] that decides whether the clock or the random source is read. *)
Ltac run_formatTrackingData data :=
  unfold formatTrackingData, generateSessionId, js_or_lazy, bind,
    browser, Date_now, Math_random, ret;
  destruct (truthy (sessionStartTime data)) eqn:?,
           (truthy (lastActivityTime data)) eqn:?,
           (truthy (sessionId data)) eqn:?,
           (truthy (timestamp data)) eqn:?;
  cbn [fst snd ticks draws localStorage].

(** [formatTrackingData] returns, whatever it is given. *)
Lemma formatTrackingData_returns (data : UserTrackingData) (b : Browser)
      (r : Run) :
  exists d r', formatTrackingData data b r = (Normal d, r').
Proof. run_formatTrackingData data; eauto. Qed.

Lemma truthy_is_Some {A} `{ToBoolean A} (o : option A) :
  truthy o = true -> is_Some o.
Proof. destruct o; [eauto|discriminate]. Qed.

Lemma js_or_is_Some {A} `{ToBoolean A} (a : option A) (x : A) :
  is_Some (a ||| Some x).
Proof.
  unfold js_or. destruct (truthy a) eqn:E; eauto using truthy_is_Some.
Qed.

Lemma js_or_truthy {A} `{ToBoolean A} (a b : option A) :
  truthy a = true -> a ||| b = a.
Proof. unfold js_or. now intros ->. Qed.

Lemma js_nullish_Some {A} (a b : option A) (x : A) :
  a = Some x -> a ??? b = Some x.
Proof. now intros ->. Qed.

Module SnapshotFacts.

Lemma js_or_falsy {A} `{ToBoolean A} (a b : option A) :
  truthy a = false -> a ||| b = b.
Proof. unfold js_or. now intros ->. Qed.

(** [formatTrackingData] in one step: the snapshot it returns and the
    state it leaves. *)
Lemma formatTrackingData_snapshot (data : UserTrackingData) (b : Browser)
      (r : Run) :
  let n1 := falls_back (sessionStartTime data) in
  let n2 := falls_back (lastActivityTime data) in
  let n3 := falls_back (sessionId data) in
  let n4 := falls_back (timestamp data) in
  formatTrackingData data b r
  = (Normal
       (snapshot data b
          (sessionStartTime data ||| Some (int (clock b (ticks r))))
          (lastActivityTime data ||| Some (int (clock b (ticks r + n1))))
          (sessionId data
           ||| Some (session_id (clock b (ticks r + n1 + n2))
                                (random_component (entropy b (draws r)))))
          (timestamp data ||| Some (int (clock b (ticks r + n1 + n2 + n3))))),
     {| ticks := ticks r + n1 + n2 + n3 + n4;
        draws := draws r + n3;
        localStorage := localStorage r |}).
Proof.
  cbv zeta. unfold falls_back. destruct r as [t0 d0 store].
  run_formatTrackingData data; unfold snapshot;
    repeat match goal with
           | H : truthy _ = true |- _ =>
               rewrite ?(js_or_truthy _ _ H); clear H
           | H : truthy _ = false |- _ =>
               rewrite ?(js_or_falsy _ _ H); clear H
           end;
    rewrite ?Nat.add_0_r, ?Nat.add_1_r; reflexivity.
Qed.

Lemma session_id_truthy (time : Z) (random : string) :
  to_boolean (session_id time random) = true.
Proof.
  unfold session_id. destruct (Number_toString time); reflexivity.
Qed.

Lemma clock_truthy (z : Z) : z <> 0%Z -> to_boolean (int z) = true.
Proof. intros N. cbn. destruct z; [congruence|reflexivity|reflexivity]. Qed.

Lemma js_or_again {A} `{ToBoolean A} (a b : option A) :
  (a ||| b) ||| b = a ||| b.
Proof. unfold js_or. destruct (truthy a) eqn:E; [now rewrite E|]. now destruct (truthy b). Qed.

Lemma js_nullish_again {A} (a b : option A) : (a ??? b) ??? b = a ??? b.
Proof. destruct a, b; reflexivity. Qed.

Lemma js_or_Some_truthy {A} `{ToBoolean A} (a : option A) (x : A) :
  to_boolean x = true -> truthy (a ||| Some x) = true.
Proof.
  intros T. unfold js_or. destruct (truthy a) eqn:E; [exact E|exact T].
Qed.

Lemma js_or_settled {A} `{ToBoolean A} (a c : option A) (x : A) :
  to_boolean x = true -> (a ||| Some x) ||| c = a ||| Some x.
Proof. intros T. apply js_or_truthy. now apply js_or_Some_truthy. Qed.

End SnapshotFacts.

Example format_on_ipad :
  exists d r',
    formatTrackingData no_overrides ipad_browser fresh = (Normal d, r')
    /\ isMobile d = Some true /\ isTablet d = Some true
    /\ isDesktop d = Some false
    /\ sessionId d = Some "1700000000002-07ub"
    /\ timestamp d = Some (int 1700000000003)
    /\ pageViews d = Some (int 1)
    /\ ipAddress d = None /\ connectionType d = None.
Proof. do 2 eexists. vm_compute. repeat split; reflexivity. Qed.

(** C6, as stated, fails in a browser whose user agent is an iPad's:
    the snapshot built from no overrides has isMobile and isTablet both
    true. *)
Lemma formatTrackingData_two_device_flags :
  ~ (forall d r',
       formatTrackingData no_overrides ipad_browser fresh = (Normal d, r') ->
       exists m t k,
         isMobile d = Some m /\ isTablet d = Some t /\ isDesktop d = Some k
         /\ exactly_one m t k = true).
Proof.
  intros H.
  destruct (formatTrackingData_returns no_overrides ipad_browser fresh)
    as (d & r' & E).
  destruct (H d r' E) as (m & t & k & Hm & Ht & Hk & One).
  vm_compute in E. injection E as <- _.
  cbn in Hm, Ht, Hk. injection Hm as <-. injection Ht as <-.
  injection Hk as <-. discriminate.
Qed.

(** C6, amended: every snapshot built from overrides that do not set the
    three flags has isDesktop true exactly when isMobile and isTablet are
    both false, and isTablet true only if isMobile is true; so at least
    one flag is set, isDesktop is never set together with another flag,
    and a tablet has two flags set. *)
Theorem formatTrackingData_device_flags (data : UserTrackingData)
        (b : Browser) (r : Run) :
  isMobile data = None -> isTablet data = None -> isDesktop data = None ->
  exists d r' m t,
    formatTrackingData data b r = (Normal d, r')
    /\ isMobile d = Some m /\ isTablet d = Some t
    /\ isDesktop d = Some (negb m && negb t)
    /\ (t = true -> m = true)
    /\ (m || t || (negb m && negb t) = true).
Proof.
  intros Hm Ht Hd.
  pose (dt := detectDeviceType b (navigator_userAgent b)).
  assert (T : dt_isTablet dt = true -> dt_isMobile dt = true).
  { intros T. now apply detectDeviceType_tablet. }
  assert (O : dt_isMobile dt || dt_isTablet dt
              || (negb (dt_isMobile dt) && negb (dt_isTablet dt)) = true)
    by (destruct (dt_isMobile dt), (dt_isTablet dt); reflexivity).
  run_formatTrackingData data;
    do 2 eexists; exists (dt_isMobile dt), (dt_isTablet dt);
    (split; [reflexivity|]); cbn; rewrite Hm, Ht, Hd; cbn; auto.
Qed.

Lemma formatTrackingData_device_flags_witness :
  exists d r' m t,
    formatTrackingData no_overrides ipad_browser fresh = (Normal d, r')
    /\ isMobile d = Some m /\ isTablet d = Some t
    /\ isDesktop d = Some (negb m && negb t)
    /\ (t = true -> m = true)
    /\ (m || t || (negb m && negb t) = true).
Proof.
  apply (formatTrackingData_device_flags no_overrides ipad_browser fresh);
    reflexivity.
Defined.

(** ** validateTrackingData *)

(** C10: whatever the overrides, the browser and the state of the run,
    [formatTrackingData] returns a snapshot whose userAgent, sessionId,
    timestamp and currentUrl are defined, so [validateTrackingData]
    answers true on it. *)
Theorem validateTrackingData_formatTrackingData (data : UserTrackingData)
        (b : Browser) (r : Run) :
  exists d r',
    formatTrackingData data b r = (Normal d, r')
    /\ is_Some (userAgent d) /\ is_Some (sessionId d)
    /\ is_Some (timestamp d) /\ is_Some (currentUrl d)
    /\ validateTrackingData d = true.
Proof.
  assert (V : forall d, is_Some (userAgent d) -> is_Some (sessionId d) ->
                        is_Some (timestamp d) -> is_Some (currentUrl d) ->
                        validateTrackingData d = true).
  { intros d [? U] [? S] [? T] [? C].
    unfold validateTrackingData, requiredFields; cbn.
    rewrite U, S, T, C; cbn. reflexivity. }
  run_formatTrackingData data;
    do 2 eexists; (split; [reflexivity|]);
    match goal with
    | |- ?u /\ ?s /\ ?t /\ ?c /\ _ =>
        assert (U : u) by (cbn; apply js_or_is_Some);
        assert (S : s) by (cbn; eauto using truthy_is_Some);
        assert (T : t) by (cbn; eauto using truthy_is_Some);
        assert (C : c) by (cbn; apply js_or_is_Some)
    end;
    repeat split; try assumption; apply V; assumption.
Qed.

(** ** The priority of overrides *)

(** C5, as stated, fails: a connection type supplied by the caller is
    dropped (the connection fields come from [getConnectionInfo] alone),
    and an empty referrer supplied by the caller is replaced by the
    document's referrer (an empty string is falsy for [||]). *)
Lemma formatTrackingData_override_replaced :
  exists d r',
    formatTrackingData some_overrides desktop_browser fresh = (Normal d, r')
    /\ get some_overrides k_connectionType = Some (Str "wifi")
    /\ get d k_connectionType = None
    /\ get some_overrides k_referrer = Some (Str "")
    /\ get d k_referrer = Some (Str "https://www.google.com/").
Proof. do 2 eexists. vm_compute. repeat split; reflexivity. Qed.

(** C5, amended: for every partial-overrides input, a field merged with
    [??] or copied (cookieEnabled, doNotTrack, isMobile, isTablet,
    isDesktop, touchSupport, ipAddress) takes the value the caller
    supplied; a field merged with [||] takes the value the caller
    supplied when that value is truthy (a non-empty string, a number
    other than 0 and NaN). Otherwise the field falls back: a field merged
    with [??] that the caller left out, and a field merged with [||]
    that the caller left out or gave falsy, takes the value of the
    platform inspection or its constant (a clock reading or a new
    identifier for sessionStartTime, lastActivityTime, sessionId and
    timestamp); a copied field that was left out stays undefined. The
    four connection fields are those of [getConnectionInfo], whatever
    the caller supplied. *)
Theorem formatTrackingData_override_priority (data : UserTrackingData)
        (b : Browser) (r : Run) :
  exists d r',
    formatTrackingData data b r = (Normal d, r')
    /\ (forall field v,
          get data field = Some v ->
          match merged field with
          | ByNullish | Copied => get d field = Some v
          | ByOr => to_boolean v = true -> get d field = Some v
          | Spread => True
          end)
    /\ (forall field,
          match merged field with
          | ByNullish =>
              get data field = None -> get d field = fallback_at data b r field
          | ByOr =>
              truthy (get data field) = false ->
              get d field = fallback_at data b r field
          | Copied => get data field = None -> get d field = None
          | Spread => get d field = fallback_at data b r field
          end)
    /\ connectionType d = ci_connectionType (getConnectionInfo b)
    /\ effectiveType d = ci_effectiveType (getConnectionInfo b)
    /\ downlink d = ci_downlink (getConnectionInfo b)
    /\ rtt d = ci_rtt (getConnectionInfo b).
Proof.
  rewrite SnapshotFacts.formatTrackingData_snapshot. cbv zeta.
  do 2 eexists. split; [reflexivity|].
  split; [|split; [|repeat split; reflexivity]].
  - intros field v G; destruct field; cbn in G |- *.
    all: try exact I.
    all: let t := constr:(data) in
         match type of G with
         | context [?f t] => destruct (f t) as [x|] eqn:F
         end; [|discriminate].
    all: cbn in G; injection G as <-.
    all: try reflexivity.
    all: intros T; change (to_boolean x = true) in T.
    all: rewrite js_or_truthy by exact T; reflexivity.
  - intros field. destruct field; cbn; try reflexivity.
    all: intros M.
    all: let t := constr:(data) in
         match type of M with
         | context [?f t] => destruct (f t) as [x|]
         end; try discriminate M; try reflexivity.
    all: change (to_boolean x = false) in M; unfold js_or; cbn [truthy];
      rewrite M; reflexivity.
Qed.

(** Overrides that keep their page views, their identifier, their cookie
    flag and their address, and lose their empty referrer. *)
Lemma formatTrackingData_override_priority_witness :
  exists d r',
    formatTrackingData some_overrides desktop_browser fresh = (Normal d, r')
    /\ get d k_pageViews = Some (Num (int 3))
    /\ get d k_sessionId = Some (Str "abc")
    /\ get d k_cookieEnabled = Some (Bool false)
    /\ get d k_ipAddress = Some (Str "203.0.113.7")
    /\ get d k_referrer = Some (Str "https://www.google.com/")
    /\ get d k_timestamp = Some (Num (int 1700000000002))
    /\ get d k_touchSupport = Some (Bool false).
Proof.
  destruct (formatTrackingData_override_priority
              some_overrides desktop_browser fresh)
    as (d & r' & E & P & F & _).
  exists d, r'. split; [exact E|].
  repeat split.
  - apply (P k_pageViews (Num (int 3))); reflexivity.
  - apply (P k_sessionId (Str "abc")); reflexivity.
  - apply (P k_cookieEnabled (Bool false)); reflexivity.
  - apply (P k_ipAddress (Str "203.0.113.7")); reflexivity.
  - apply (F k_referrer). reflexivity.
  - apply (F k_timestamp). reflexivity.
  - apply (F k_touchSupport). reflexivity.
Defined.

(** ** getIPAddress *)

Example getIPAddress_online :
  getIPAddress online_browser fresh = (Normal (Some "203.0.113.7"), fresh).
Proof. reflexivity. Qed.

Example getIPAddress_offline :
  getIPAddress desktop_browser fresh = (Normal None, fresh).
Proof. reflexivity. Qed.

Example getIPAddress_not_json :
  getIPAddress captive_browser fresh = (Normal None, fresh).
Proof. reflexivity. Qed.

(** A request that never settles leaves the promise pending: nothing is
    returned, and nothing is thrown. *)
Example getIPAddress_pending :
  getIPAddress (on_network (fun _ => Pending) desktop_browser) fresh
  = (Pending, fresh).
Proof. reflexivity. Qed.

Lemma getIPAddress_never_throws (b : Browser) (r : Run) (e : exn) :
  fst (getIPAddress b r) <> Abrupt e.
Proof.
  unfold getIPAddress, try_catch, bind, browser, await, Response_json,
    get_ip, throw, ret.
  destruct (fetch b ipify) as [response| |]; cbn; try discriminate.
  destruct (body response) as [[|ip]|]; cbn; discriminate.
Qed.

(** C9: when the lookup fails (the request is rejected by a network error
    or a timeout, or the response does not parse), [getIPAddress] returns
    [undefined]; it never throws; and [formatTrackingData] returns a
    snapshot whose ipAddress is the one the caller supplied, or none, the
    same on every network. *)
Theorem getIPAddress_failure_leaves_ip_absent (data : UserTrackingData)
        (b : Browser) (r : Run) (net : string -> completion Response) :
  (ip_lookup_fails b = true -> getIPAddress b r = (Normal None, r))
  /\ (forall e, fst (getIPAddress b r) <> Abrupt e)
  /\ (exists d r',
        formatTrackingData data b r = (Normal d, r')
        /\ ipAddress d = ipAddress data)
  /\ formatTrackingData data (on_network net b) r
     = formatTrackingData data b r.
Proof.
  split; [|split; [|split]].
  - unfold ip_lookup_fails, getIPAddress, try_catch, bind, browser, await,
      Response_json, get_ip, throw, ret.
    destruct (fetch b ipify) as [response| |]; cbn; try easy.
    destruct (body response) as [[|ip]|]; cbn; easy.
  - intros e. apply getIPAddress_never_throws.
  - run_formatTrackingData data; do 2 eexists; split; reflexivity.
  - run_formatTrackingData data; reflexivity.
Qed.

Lemma getIPAddress_failure_leaves_ip_absent_witness :
  getIPAddress captive_browser fresh = (Normal None, fresh).
Proof.
  apply (getIPAddress_failure_leaves_ip_absent
           no_overrides captive_browser fresh offline).
  reflexivity.
Defined.

(** ** The local store *)

Module JSONFacts.

(** Reading back what was written loses nothing more. *)
Lemma JSON_number_idem (n : option number) :
  JSON_number (JSON_number n) = JSON_number n.
Proof. now destruct n as [[]|]. Qed.

Lemma JSON_data_idem (d : UserTrackingData) :
  JSON_data (JSON_data d) = JSON_data d.
Proof.
  destruct d. unfold JSON_data. cbn. now rewrite !JSON_number_idem.
Qed.

Lemma JSON_event_idem (e : TrackingEvent) :
  JSON_event (JSON_event e) = JSON_event e.
Proof.
  destruct e. unfold JSON_event. cbn.
  now rewrite JSON_data_idem, JSON_number_idem.
Qed.

Lemma JSON_entry_idem (e : StoredEntry) :
  JSON_entry (JSON_entry e) = JSON_entry e.
Proof.
  destruct e. unfold JSON_entry. cbn.
  rewrite JSON_data_idem, JSON_number_idem, List.map_map. f_equal.
  apply List.map_ext. intros e. apply JSON_event_idem.
Qed.

Lemma JSON_entries_idem (entries : list StoredEntry) :
  map JSON_entry (map JSON_entry entries) = map JSON_entry entries.
Proof.
  rewrite List.map_map. apply List.map_ext. intros e. apply JSON_entry_idem.
Qed.

Lemma JSON_value_idem (v : parsed) : JSON_value (JSON_value v) = JSON_value v.
Proof. destruct v; cbn; now rewrite ?JSON_entries_idem. Qed.

(** The array written after a push on the array read. *)
Lemma JSON_entries_push (entries : list StoredEntry) (e : StoredEntry) :
  map JSON_entry (map JSON_entry (map JSON_entry entries ++ [e]))
  = (map JSON_entry entries ++ [JSON_entry e])%list.
Proof.
  now rewrite JSON_entries_idem, List.map_app, JSON_entries_idem.
Qed.

Lemma JSON_entries_first (e : StoredEntry) :
  map JSON_entry (map JSON_entry [e]) = [JSON_entry e].
Proof. cbn. now rewrite JSON_entry_idem. Qed.

End JSONFacts.

Ltac run_storage :=
  unfold saveToLocalStorage, getFromLocalStorage, clearLocalStorage,
    try_catch, bind, Array_push, JSON_parse, JSON_stringify,
    localStorage_getItem, localStorage_setItem, localStorage_removeItem,
    Date_now, throw, ret.

(** A call of [saveToLocalStorage] that answers true has appended one
    entry at the end and has kept every entry that was there. *)
Lemma saveToLocalStorage_appends (trackingData : UserTrackingData)
      (events : list TrackingEvent) (b : Browser) (r r' : Run) :
  saveToLocalStorage trackingData events b r = (Normal true, r') ->
  exists entries,
    (stored_entries r = Some entries
     \/ (entries = []
         /\ (localStorage r !! "trackingData" = None
             \/ localStorage r !! "trackingData" = Some Blank)))
    /\ stored_entries r'
       = Some (entries
                 ++ [JSON_entry
                       {| se_trackingData := trackingData;
                          se_events := events;
                          se_timestamp := Some (int (clock b (ticks r))) |}])%list.
Proof.
  unfold stored_entries. run_storage.
  destruct (storage_denied b); [discriminate|].
  destruct (localStorage r !! "trackingData") as [[| |[entries| |]]|] eqn:L;
    cbn; try discriminate.
  all: match goal with
       | |- context [storage_quota ?b0 ?t] => destruct (storage_quota b0 t)
       end; cbn; try discriminate.
  all: intros [= <-]; cbn [localStorage]; rewrite lookup_insert_eq.
  all: rewrite ?JSONFacts.JSON_entries_push; cbn [map];
    rewrite ?JSONFacts.JSON_entry_idem; eauto 6.
Qed.

(** C7: the three operations of the local store always return a value:
    they neither throw nor stay pending. When [localStorage] cannot be
    reached, save and clear return false and the read returns the empty
    array; when the quota refuses the write, save returns false and the
    store is left as it was; when the stored text does not parse, the
    read returns the empty array (and save returns false). Save returns
    true only when the store was reached and took the write: on a store
    that can be reached and holds an array (or nothing), its answer is
    whether the quota takes the text of that array with the new entry at
    its end, and a refusal of that one text leaves the store as it
    was. *)
Theorem localStorage_failures_are_reported (trackingData : UserTrackingData)
        (events : list TrackingEvent) (b : Browser) (r : Run) :
  (exists ok r', saveToLocalStorage trackingData events b r = (Normal ok, r'))
  /\ (exists v, getFromLocalStorage b r = (Normal v, r))
  /\ (exists ok r', clearLocalStorage b r = (Normal ok, r'))
  /\ (storage_denied b = true ->
      saveToLocalStorage trackingData events b r = (Normal false, r)
      /\ clearLocalStorage b r = (Normal false, r)
      /\ getFromLocalStorage b r = (Normal (PArray []), r))
  /\ ((forall text, storage_quota b text = false) ->
      exists r',
        saveToLocalStorage trackingData events b r = (Normal false, r')
        /\ localStorage r' = localStorage r)
  /\ (localStorage r !! "trackingData" = Some Malformed ->
      getFromLocalStorage b r = (Normal (PArray []), r)
      /\ saveToLocalStorage trackingData events b r = (Normal false, r))
  /\ (forall r',
        saveToLocalStorage trackingData events b r = (Normal true, r') ->
        storage_denied b = false
        /\ exists entries,
             stored_entries r' = Some entries
             /\ storage_quota b (Serialized (PArray entries)) = true)
  /\ (forall entries,
        storage_denied b = false ->
        holds r entries ->
        let text :=
          JSON_stringify
            (PArray (entries
                       ++ [entry_at trackingData events (clock b (ticks r))]))
        in
        fst (saveToLocalStorage trackingData events b r)
        = Normal (storage_quota b text)
        /\ (storage_quota b text = false ->
            localStorage (snd (saveToLocalStorage trackingData events b r))
            = localStorage r)
        /\ (storage_quota b text = true ->
            localStorage (snd (saveToLocalStorage trackingData events b r))
            = <["trackingData" := text]> (localStorage r))).
Proof.
  repeat apply conj.
  - run_storage.
    destruct (storage_denied b); [eauto|].
    destruct (localStorage r !! "trackingData") as [[| |[entries| |]]|];
      cbn; eauto.
    all: match goal with
         | |- context [storage_quota ?b0 ?t] => destruct (storage_quota b0 t)
         end; cbn; eauto.
  - run_storage.
    destruct (storage_denied b); [eauto|].
    destruct (localStorage r !! "trackingData") as [[| |v]|]; cbn; eauto.
  - run_storage. destruct (storage_denied b); eauto.
  - intros D. run_storage. rewrite D. auto.
  - intros Full. run_storage.
    destruct (storage_denied b); [eauto|].
    destruct (localStorage r !! "trackingData") as [[| |[entries| |]]|];
      cbn; rewrite ?Full; cbn; eauto.
  - intros Bad. run_storage. rewrite Bad.
    destruct (storage_denied b); auto.
  - intros r'. unfold stored_entries. run_storage.
    destruct (storage_denied b); [discriminate|].
    destruct (localStorage r !! "trackingData") as [[| |[entries| |]]|];
      cbn; try discriminate.
    all: match goal with
         | |- context [storage_quota ?b0 ?t] =>
             destruct (storage_quota b0 t) eqn:Fits
         end; cbn; try discriminate.
    all: intros [= <-]; cbn [localStorage]; rewrite lookup_insert_eq.
    all: split; [reflexivity|]; eexists; split; [reflexivity|].
    all: cbn [map]; rewrite ?JSONFacts.JSON_entries_idem,
           ?JSONFacts.JSON_entry_idem; exact Fits.
  - intros entries Open Holds. unfold holds in Holds. unfold entry_at.
    run_storage. rewrite Open.
    destruct (localStorage r !! "trackingData") as [[| |[found| |]]|];
      try contradiction; subst entries; cbn.
    all: match goal with
         | |- context [storage_quota ?b0 ?t] => destruct (storage_quota b0 t)
         end; cbn; (split; [|split]); congruence.
Qed.

(** A private window, a full store, an unparsable text, and a store with
    room for two entries that is asked for a third. *)
Lemma localStorage_failures_are_reported_witness :
  (saveToLocalStorage no_overrides [an_event] private_browser fresh
   = (Normal false, fresh)
   /\ clearLocalStorage private_browser fresh = (Normal false, fresh)
   /\ getFromLocalStorage private_browser fresh = (Normal (PArray []), fresh))
  /\ (exists r',
        saveToLocalStorage no_overrides [an_event] full_browser fresh
        = (Normal false, r')
        /\ localStorage r' = localStorage fresh)
  /\ (let r := {| ticks := 0; draws := 0;
                  localStorage := {[ "trackingData" := Malformed ]} |} in
      getFromLocalStorage desktop_browser r = (Normal (PArray []), r)
      /\ saveToLocalStorage no_overrides [an_event] desktop_browser r
         = (Normal false, r))
  /\ (fst (saveToLocalStorage no_overrides [an_event] small_browser two_saved)
      = Normal false
      /\ localStorage
           (snd (saveToLocalStorage no_overrides [an_event] small_browser
                   two_saved))
         = localStorage two_saved).
Proof.
  split; [|split; [|split]].
  - apply (localStorage_failures_are_reported
             no_overrides [an_event] private_browser fresh).
    reflexivity.
  - apply (localStorage_failures_are_reported
             no_overrides [an_event] full_browser fresh).
    reflexivity.
  - apply (localStorage_failures_are_reported
             no_overrides [an_event] desktop_browser
             {| ticks := 0; draws := 0;
                localStorage := {[ "trackingData" := Malformed ]} |}).
    reflexivity.
  - destruct (localStorage_failures_are_reported
                no_overrides [an_event] small_browser two_saved)
      as (_ & _ & _ & _ & _ & _ & _ & Write).
    destruct (Write [entry_at no_overrides [an_event] 1700000000000;
                     entry_at no_overrides [an_event] 1700000000001]
                eq_refl eq_refl)
      as (Answer & Refused & _).
    split; [exact Answer|]. apply Refused. reflexivity.
Defined.

(** In a browser whose storage takes every write, [n] calls add [n]
    entries after the ones that were there: none is ever dropped. *)
Lemma save_repeatedly_grows (n : nat) (trackingData : UserTrackingData)
      (events : list TrackingEvent) (b : Browser) :
  storage_denied b = false ->
  (forall text, storage_quota b text = true) ->
  forall (r : Run) (entries : list StoredEntry),
    stored_entries r = Some entries ->
    exists r' added,
      save_repeatedly n trackingData events b r = (Normal tt, r')
      /\ stored_entries r' = Some (entries ++ added)%list
      /\ List.length added = n.
Proof.
  intros Open Roomy. induction n as [|n IH]; intros r entries E.
  - exists r, []. cbn. rewrite app_nil_r. auto.
  - cbn [save_repeatedly]. unfold bind at 1.
    destruct (saveToLocalStorage trackingData events b r) as [c r1] eqn:S.
    assert (c = Normal true) as ->.
    { revert S. unfold stored_entries in E. run_storage. rewrite Open.
      destruct (localStorage r !! "trackingData") as [[| |[l| |]]|];
        try discriminate.
      cbn. rewrite Roomy. now intros [= <- _]. }
    destruct (saveToLocalStorage_appends _ _ _ _ _ S)
      as (entries0 & [E0|(-> & [N|N])] & E1).
    + rewrite E in E0. injection E0 as <-.
      destruct (IH r1 _ E1) as (r' & added & Run' & E' & Len).
      rewrite <- app_assoc in E'. cbn in E'.
      eexists r', (_ :: added). rewrite Run', E'. cbn. auto.
    + unfold stored_entries in E. now rewrite N in E.
    + unfold stored_entries in E. now rewrite N in E.
Qed.

Example save_from_nothing :
  exists r',
    saveToLocalStorage no_overrides [an_event] desktop_browser fresh
    = (Normal true, r')
    /\ stored_entries r'
       = Some [{| se_trackingData := no_overrides;
                  se_events := [an_event];
                  se_timestamp := Some (int 1700000000000) |}].
Proof. eexists. split; vm_compute; reflexivity. Qed.

(** What the cap of the specification would leave. *)
Example spec_append_55 :
  List.length
    (fold_left (spec_append (maxLocalStorageItems DEFAULT_TRACKING_CONFIG))
               (seq 0 55) [])
  = 50.
Proof. vm_compute. reflexivity. Qed.

(** C3 fails on the code: 55 calls of [saveToLocalStorage] on an empty
    store, in a browser that takes every write, leave 55 entries, the
    first one included, and not the 50 of [maxLocalStorageItems]. *)
Theorem saveToLocalStorage_55_entries_after_55_appends :
  exists r' entries,
    save_repeatedly 55 no_overrides [an_event] desktop_browser fresh
    = (Normal tt, r')
    /\ stored_entries r' = Some entries
    /\ List.length entries = 55
    /\ maxLocalStorageItems DEFAULT_TRACKING_CONFIG = 50
    /\ entries !! 0
       = Some {| se_trackingData := no_overrides;
                 se_events := [an_event];
                 se_timestamp := Some (int 1700000000000) |}.
Proof.
  destruct save_from_nothing as (r1 & First & E1).
  destruct (save_repeatedly_grows 54 no_overrides [an_event] desktop_browser
              eq_refl (fun _ => eq_refl) _ _ E1)
    as (r' & added & Run' & E' & Len).
  eexists r', (_ :: added).
  split; [|split; [exact E'|cbn; rewrite Len; auto]].
  change 55 with (S 54). cbn [save_repeatedly]. unfold bind at 1.
  rewrite First. exact Run'.
Qed.

(** ** sendToMultipleEndpoints *)

Lemma Promise_allSettled_never_rejects {A} (promises : list (Promise A))
      (e : exn) :
  Promise_allSettled promises <> Abrupt e.
Proof.
  induction promises as [|p ps IH]; cbn; [discriminate|].
  destruct p, (Promise_allSettled ps); congruence.
Qed.

Lemma Promise_allSettled_fetches (b : Browser) (endpoints : list string) :
  Forall (fun endpoint => fetch b endpoint <> Pending) endpoints ->
  Promise_allSettled
    (map (fun endpoint => Promise_catch (fetch b endpoint) (fun _ => None))
         endpoints)
  = Normal (map (settles_to b) endpoints).
Proof.
  induction 1 as [|endpoint endpoints Settled _ IH]; cbn; [reflexivity|].
  rewrite IH. unfold settles_to, Promise_catch.
  destruct (fetch b endpoint); cbn; congruence.
Qed.

Example send_three :
  sendToMultipleEndpoints (no_overrides, [an_event])
    ["/api/tracking"; "/api/backup"; "/api/analytics"] online_browser fresh
  = (Normal
       [ {| er_endpoint := Some "/api/tracking"; er_success := true;
            er_response :=
              Some {| status := 200; body := Some (JsonValue None) |} |};
         {| er_endpoint := Some "/api/backup"; er_success := true;
            er_response := Some {| status := 500; body := None |} |};
         {| er_endpoint := Some "/api/analytics"; er_success := false;
            er_response := None |} ],
     fresh).
Proof. reflexivity. Qed.

(** One endpoint that never answers keeps the whole call pending. *)
Example send_pending :
  sendToMultipleEndpoints (no_overrides, [an_event])
    ["/api/tracking"; "/api/slow"] online_browser fresh
  = (Pending, fresh).
Proof. reflexivity. Qed.

(** C4, as stated, fails: an endpoint that answers with status 500 (not a
    success response) gets the success flag true. *)
Lemma sendToMultipleEndpoints_http_error_is_success :
  exists results res,
    sendToMultipleEndpoints (no_overrides, [an_event])
      ["/api/tracking"; "/api/backup"; "/api/analytics"] online_browser fresh
    = (Normal results, fresh)
    /\ results !! 1 = Some res
    /\ er_endpoint res = Some "/api/backup"
    /\ er_success res = true
    /\ spec_submission_succeeded (fetch online_browser "/api/backup") = false.
Proof.
  do 2 eexists. split; [vm_compute; reflexivity|].
  repeat split; reflexivity.
Qed.

(** C4, amended: [sendToMultipleEndpoints] never throws; when every
    request settles it returns an array with exactly one entry per
    endpoint, in the same order, and the success flag of an entry is true
    if and only if the request was answered with a response, whatever its
    status; a rejected request (network error, timeout) is a failure. *)
Theorem sendToMultipleEndpoints_one_result_per_endpoint
        (data : UserTrackingData * list TrackingEvent)
        (endpoints : list string) (b : Browser) (r : Run) :
  (forall e, fst (sendToMultipleEndpoints data endpoints b r) <> Abrupt e)
  /\ (Forall (fun endpoint => fetch b endpoint <> Pending) endpoints ->
      exists results,
        sendToMultipleEndpoints data endpoints b r = (Normal results, r)
        /\ List.length results = List.length endpoints
        /\ forall (index : nat) (endpoint : string),
             endpoints !! index = Some endpoint ->
             exists res,
               results !! index = Some res
               /\ er_endpoint res = Some endpoint
               /\ (er_success res = true
                   <-> exists response, fetch b endpoint = Normal response)
               /\ er_response res
                  = match fetch b endpoint with
                    | Normal response => Some response
                    | Abrupt _ | Pending => None
                    end).
Proof.
  split.
  - intros e. unfold sendToMultipleEndpoints, bind, browser, await, ret.
    cbn.
    match goal with
    | |- context [Promise_allSettled ?ps] =>
        pose proof (Promise_allSettled_never_rejects ps e);
        destruct (Promise_allSettled ps)
    end; cbn; congruence.
  - intros Settled.
    unfold sendToMultipleEndpoints, bind, browser, await, ret. cbn.
    rewrite (Promise_allSettled_fetches b endpoints Settled).
    eexists. split; [reflexivity|]. split.
    + now rewrite length_imap, length_map.
    + intros index endpoint L.
      rewrite list_lookup_imap, list_lookup_fmap.
      revert L. generalize (endpoints !! index). intros ? ->. cbn.
      eexists. split; [reflexivity|]. cbn.
      unfold settles_to.
      destruct (fetch b endpoint) as [response| |]; cbn;
        (split; [reflexivity|]); (split; [|reflexivity]);
        split; eauto; try discriminate; intros [? ?]; discriminate.
Qed.

Lemma sendToMultipleEndpoints_one_result_per_endpoint_witness :
  exists results,
    sendToMultipleEndpoints (no_overrides, [an_event])
      ["/api/tracking"; "/api/backup"; "/api/analytics"] online_browser fresh
    = (Normal results, fresh)
    /\ List.length results = 3.
Proof.
  destruct (sendToMultipleEndpoints_one_result_per_endpoint
              (no_overrides, [an_event])
              ["/api/tracking"; "/api/backup"; "/api/analytics"]
              online_browser fresh) as [_ H].
  destruct H as (results & E & Len & _).
  - repeat constructor; discriminate.
  - exists results. split; [exact E|exact Len].
Defined.

(** ** generateSessionId *)

Module RandomFacts.

Lemma substring_take (n : nat) : forall l : list ascii,
  substring 0 n (string_of_list_ascii l) = string_of_list_ascii (take n l).
Proof.
  induction n as [|n IH]; intros [|c l]; cbn; try reflexivity.
  now rewrite IH.
Qed.

Lemma in_alphabet (d : nat) :
  In (digit36 d) (list_ascii_of_string digits36).
Proof.
  unfold digit36.
  pose proof (Nat.mod_upper_bound d 36 ltac:(discriminate)) as B.
  destruct (d mod 36) as [|n]; [cbn; tauto|].
  do 35 (destruct n as [|n]; [vm_compute; tauto|]).
  exfalso. lia.
Qed.

(** The random component is the first nine digits, printed. *)
Lemma random_component_digits (x : fraction36) :
  random_component x = string_of_list_ascii (map digit36 (take 9 x)).
Proof.
  unfold random_component, substr, toString36.
  destruct x as [|d x]; [reflexivity|].
  change (substring 2 9 ("0." ++ string_of_list_ascii (map digit36 (d :: x))))
    with (substring 0 9 (string_of_list_ascii (map digit36 (d :: x)))).
  rewrite substring_take. f_equal.
  change (take 9 (map digit36 (d :: x))) with (take 9 (digit36 <$> (d :: x))).
  now rewrite <- fmap_take.
Qed.

Lemma length_string_of_list (l : list ascii) :
  String.length (string_of_list_ascii l) = List.length l.
Proof. induction l; cbn; congruence. Qed.

End RandomFacts.

Module SessionIdFacts.















End SessionIdFacts.

Example generate_three :
  fst (generate_ids 3 desktop_browser fresh)
  = Normal ["1700000000000-07ub"; "1700000000001-17ub";
            "1700000000002-27ub"].
Proof. vm_compute. reflexivity. Qed.

(** Two random numbers that print alike up to their ninth digit give the
    same random component. *)
Example random_component_keeps_nine_digits :
  random_component [1; 2; 3; 4; 5; 6; 7; 8; 9; 10]
  = random_component [1; 2; 3; 4; 5; 6; 7; 8; 9; 35].
Proof. reflexivity. Qed.



(** ** calculateScrollDepth *)

(** Rounding, as [binary_round_aux] does it for binary64. *)
Module RoundFacts.
Open Scope Z_scope.






Lemma shr_m_of_loc (m : Z) (l : location) : shr_m (shr_record_of_loc m l) = m.
Proof. now destruct l as [|[]]. Qed.




(** A shift keeps a mantissa that is not negative so. *)
Lemma shr_1_nonneg (mrs : shr_record) :
  0 <= shr_m mrs -> 0 <= shr_m (shr_1 mrs).
Proof. destruct mrs as [[|[p|p|]|p] r s]; cbn; lia. Qed.

Lemma iter_pos_nonneg (p : positive) :
  forall mrs, 0 <= shr_m mrs -> 0 <= shr_m (SpecFloat.iter_pos shr_1 p mrs).
Proof.
  induction p as [p IH|p IH|]; intros mrs N; cbn [SpecFloat.iter_pos].
  - now apply IH, IH, shr_1_nonneg.
  - now apply IH, IH.
  - now apply shr_1_nonneg.
Qed.

Lemma shr_fexp_nonneg (m e : Z) (l : location) :
  0 <= m -> 0 <= shr_m (fst (shr_fexp 53 1024 m e l)).
Proof.
  intros N. unfold shr_fexp, shr.
  destruct (fexp 53 1024 (Zdigits2 m + e) - e); cbn [fst];
    rewrite <- (shr_m_of_loc m l) in N; [assumption| |assumption].
  now apply iter_pos_nonneg.
Qed.

Lemma round_nearest_even_nonneg (m : Z) (l : location) :
  0 <= m -> 0 <= round_nearest_even m l.
Proof.
  intros N. destruct l as [|[]]; cbn; try destruct (Z.even m); lia.
Qed.

(** The result of rounding carries the sign it was given: it is never
    NaN. *)
Lemma binary_round_aux_sign (m e : Z) (s : bool) (l : location) :
  0 <= m -> signed s (binary_round_aux 53 1024 s m e l) = true.
Proof.
  intros N. unfold binary_round_aux.
  pose proof (shr_fexp_nonneg m e l N) as N1.
  destruct (shr_fexp 53 1024 m e l) as [mrs1 e1]. cbn [fst] in N1.
  pose proof (round_nearest_even_nonneg _ (loc_of_shr_record mrs1) N1) as N2.
  pose proof (shr_fexp_nonneg _ e1 loc_Exact N2) as N3.
  destruct (shr_fexp 53 1024 _ e1 loc_Exact) as [mrs2 e2]. cbn [fst] in N3.
  destruct (shr_m mrs2); [| |lia]; try destruct (e2 <=? 1024 - 53);
    cbn; now destruct s.
Qed.

End RoundFacts.

Module Float64Facts.


Lemma pow2_pos (k : Z) : (0 < 2 ^ k)%Q.
Proof. now apply Qpower_0_lt. Qed.




Lemma value_neg (m : positive) (e : Z) : (Float64.value (Z.neg m) e < 0)%Q.
Proof.
  unfold Float64.value.
  setoid_replace 0%Q with (0 * 2 ^ e)%Q using relation Qeq by ring.
  apply Qmult_lt_compat_r; [apply pow2_pos|reflexivity].
Qed.

Lemma value_pos (m : positive) (e : Z) : (0 < Float64.value (Z.pos m) e)%Q.
Proof.
  unfold Float64.value.
  apply Qmult_lt_0_compat; [reflexivity|apply pow2_pos].
Qed.


Open Scope Z_scope.






(** Subtracting a binary64 number from itself leaves [+0]. *)
Lemma sub_diag (x : Float64.float64) :
  is_finite (Float64.to_number x) = true ->
  Float64.sub x x = S754_zero false.
Proof.
  destruct x as [[]|[]| |s m e]; try discriminate; try reflexivity.
  intros _.
  unfold Float64.sub, SFsub, Float64.prec, Float64.emax.
  match goal with
  | |- binary_normalize _ _ ?x _ _ = _ => assert (E : x = 0%Z)
  end.
  { apply Z.sub_diag. }
  now rewrite E.
Qed.

(** The sign of a quotient and of a product of finite numbers. *)
Lemma div_sign (sx sy : bool) (mx my : positive) (ex ey : Z) :
  signed (xorb sx sy)
    (Float64.div (S754_finite sx mx ex) (S754_finite sy my ey)) = true.
Proof.
  unfold Float64.div, SFdiv, SFdiv_core_binary, Float64.prec, Float64.emax.
  change IntDef.Z.shiftl with Z.shiftl.
  change IntDef.Z.div_eucl with Z.div_eucl.
  match goal with
  | |- context [Z.div_eucl ?a ?b] =>
      assert (N : 0 <= a);
      [|pose proof (Z_div_mod a b ltac:(lia)) as DM;
        destruct (Z.div_eucl a b) as [q r]]
  end.
  { match goal with
    | |- 0 <= match ?s with _ => _ end =>
        destruct s; [lia| |lia]
    end.
    apply Z.shiftl_nonneg. lia. }
  apply RoundFacts.binary_round_aux_sign. nia.
Qed.

Lemma mul_sign (sx sy : bool) (mx my : positive) (ex ey : Z) :
  signed (xorb sx sy)
    (Float64.mul (S754_finite sx mx ex) (S754_finite sy my ey)) = true.
Proof.
  unfold Float64.mul, SFmul, Float64.prec, Float64.emax.
  apply RoundFacts.binary_round_aux_sign. lia.
Qed.

End Float64Facts.

Example scroll_depth_scrolled :
  Float64.to_number (calculateScrollDepth scrolled_browser) = Fin 25.
Proof. vm_compute. reflexivity. Qed.

(** A page as tall as the viewport: [0 / 0]. *)
Example scroll_depth_short_page :
  calculateScrollDepth short_page_browser = S754_nan.
Proof. vm_compute. reflexivity. Qed.

(** A page of 900 pixels in a viewport of 800, scrolled to 7: the
    quotient 0.07 is rounded, and the result is 7.000000000000001. *)
Example scroll_depth_rounded :
  calculateScrollDepth rounding_browser
  = S754_finite false 7881299347898369 (-50)
  /\ Float64.to_number (calculateScrollDepth rounding_browser)
     = Fin (7881299347898369 # 1125899906842624).
Proof. split; vm_compute; reflexivity. Qed.




(** * Further properties *)

(** ** Patterns and the case of letters *)

Module CaseFacts.

Lemma word_char_canonical (c : ascii) :
  is_word_char (canonicalize true c) = is_word_char c.
Proof. destruct c as [[] [] [] [] [] [] [] []]; reflexivity. Qed.

Lemma line_terminator_canonical (c : ascii) :
  is_line_terminator (canonicalize true c) = is_line_terminator c.
Proof. destruct c as [[] [] [] [] [] [] [] []]; reflexivity. Qed.

Lemma word_char_same (c c' : ascii) :
  canonicalize true c = canonicalize true c' ->
  is_word_char c = is_word_char c'.
Proof.
  intros E. now rewrite <- (word_char_canonical c), E, word_char_canonical.
Qed.

Lemma line_terminator_same (c c' : ascii) :
  canonicalize true c = canonicalize true c' ->
  is_line_terminator c = is_line_terminator c'.
Proof.
  intros E.
  now rewrite <- (line_terminator_canonical c), E, line_terminator_canonical.
Qed.

Lemma is_word_alike (p p' : option ascii) :
  option_map (canonicalize true) p = option_map (canonicalize true) p' ->
  is_word p = is_word p'.
Proof.
  destruct p as [c|], p' as [c'|]; cbn; try discriminate; [|reflexivity].
  intros [= E]. now apply word_char_same.
Qed.

Lemma next_char_alike (s s' : string) :
  canonical s = canonical s' ->
  option_map (canonicalize true) (next_char s)
  = option_map (canonicalize true) (next_char s').
Proof.
  destruct s, s'; cbn; try discriminate; [reflexivity|].
  now intros [= -> _].
Qed.

Lemma match_lit_alike (l : string) : forall p p' s s' k k',
  alike p p' s s' -> alike_cont k k' ->
  match_lit true l p s k = match_lit true l p' s' k'.
Proof.
  induction l as [|a l IH]; intros p p' s s' k k' A K; cbn.
  - now apply K.
  - destruct A as [_ A].
    destruct s as [|c s], s' as [|c' s']; cbn in A; try discriminate;
      [reflexivity|].
    injection A as C A. unfold char_match. rewrite C.
    destruct (Ascii.eqb _ _); [|reflexivity].
    apply IH; [|exact K]. split; [cbn; now rewrite C|exact A].
Qed.

Lemma match_dotstar_alike : forall s s' p p' k k',
  alike p p' s s' -> alike_cont k k' ->
  match_dotstar p s k = match_dotstar p' s' k'.
Proof.
  induction s as [|c s IH]; intros [|c' s'] p p' k k' A K;
    pose proof A as [_ S]; cbn in S; try discriminate; cbn.
  - now apply K.
  - injection S as C S.
    rewrite (line_terminator_same c c' C), (K _ _ _ _ A).
    destruct (is_line_terminator c'); [reflexivity|].
    f_equal. apply IH; [|exact K]. split; [cbn; now rewrite C|exact S].
Qed.

Lemma matches_alike (r : regex) : forall p p' s s' k k',
  alike p p' s s' -> alike_cont k k' ->
  matches true r p s k = matches true r p' s' k'.
Proof.
  induction r as [l|r1 IH1 r2 IH2|r1 IH1 r2 IH2| | |r1 IH1];
    intros p p' s s' k k' A K; cbn.
  - now apply match_lit_alike.
  - now rewrite (IH1 _ _ _ _ _ _ A K), (IH2 _ _ _ _ _ _ A K).
  - apply IH1; [exact A|]. intros q q' t t' B. now apply IH2.
  - now apply match_dotstar_alike.
  - destruct A as [P S].
    rewrite (is_word_alike _ _ P),
      (is_word_alike _ _ (next_char_alike _ _ S)), (K p p' s s');
      [reflexivity|now split].
  - rewrite (IH1 p p' s s' accept accept A), (K _ _ _ _ A);
      [reflexivity|]. now intros ? ? ? ? _.
Qed.

Lemma search_alike (r : regex) : forall s s' p p',
  alike p p' s s' -> search true r p s = search true r p' s'.
Proof.
  induction s as [|c s IH]; intros [|c' s'] p p' A;
    pose proof A as [_ S]; cbn in S; try discriminate; cbn.
  - f_equal. apply matches_alike; [exact A|]. now intros ? ? ? ? _.
  - injection S as C S. f_equal.
    + apply matches_alike; [exact A|]. now intros ? ? ? ? _.
    + apply IH. split; [cbn; now rewrite C|exact S].
Qed.

Lemma test_alike (r : regex) (s s' : string) :
  canonical s = canonical s' -> test true r s = test true r s'.
Proof. intros S. apply search_alike. now split. Qed.

End CaseFacts.

(** X1: [detectDeviceType] does not look at the case of letters: two user
    agents that differ only by the case of ASCII letters get the same
    answer. *)
Theorem detectDeviceType_ignores_case (b : Browser) (ua ua' : string) :
  canonical ua = canonical ua' ->
  detectDeviceType b ua = detectDeviceType b ua'.
Proof.
  intros S. unfold detectDeviceType.
  now rewrite (CaseFacts.test_alike mobile_pattern ua ua' S),
    (CaseFacts.test_alike tablet_pattern ua ua' S).
Qed.

Lemma detectDeviceType_ignores_case_witness :
  detectDeviceType desktop_browser "Mozilla/5.0 (IPAD; cpu os 13_3)"
  = detectDeviceType desktop_browser "mozilla/5.0 (ipad; CPU OS 13_3)".
Proof.
  apply (detectDeviceType_ignores_case desktop_browser
           "Mozilla/5.0 (IPAD; cpu os 13_3)"
           "mozilla/5.0 (ipad; CPU OS 13_3)").
  reflexivity.
Defined.

(** ** Patterns and the words they look for *)

Module WordFacts.

(** A literal matches where the text starts with it, up to case. *)
Lemma match_lit_cont (l : string) : forall p s k,
  match_lit true l p s k = true ->
  exists mid suf p',
    s = mid ++ suf /\ canonical mid = canonical l /\ k p' suf = true.
Proof.
  induction l as [|a l IH]; intros p s k M; cbn in M.
  - exists "", s, p. auto.
  - destruct s as [|c s]; [discriminate|].
    unfold char_match in M.
    destruct (Ascii.eqb _ _) eqn:C; [|discriminate].
    apply Ascii.eqb_eq in C.
    destruct (IH _ _ _ M) as (mid & suf & p' & -> & E & K).
    exists (String c mid), suf, p'. cbn. rewrite E, C. auto.
Qed.

Lemma match_lit_start (l : string) : forall p mid suf,
  canonical mid = canonical l ->
  match_lit true l p (mid ++ suf) accept = true.
Proof.
  induction l as [|a l IH]; intros p [|c mid] suf E;
    cbn [canonical] in E; try discriminate; [reflexivity|].
  injection E as C E.
  change (match_lit true (String a l) p (String c mid ++ suf) accept)
    with (if char_match true a c
          then match_lit true l (Some c) (mid ++ suf) accept else false).
  unfold char_match. rewrite C, Ascii.eqb_refl.
  now apply IH.
Qed.

Lemma occurs_skip (w s : string) (c : ascii) :
  occurs w s -> occurs w (String c s).
Proof.
  intros (pre & mid & suf & -> & E). exists (String c pre), mid, suf. auto.
Qed.

Lemma occurs_after (w pre s : string) : occurs w s -> occurs w (pre ++ s).
Proof.
  intros O. induction pre as [|c pre IH]; [exact O|].
  now apply (occurs_skip w (pre ++ s) c).
Qed.

Lemma append_cons (c : ascii) (s t : string) :
  String c s ++ t = String c (s ++ t).
Proof. reflexivity. Qed.

Lemma append_empty (t : string) : "" ++ t = t.
Proof. reflexivity. Qed.

(** Searching for a literal is looking for an occurrence of the word. *)
Lemma search_lit (l : string) : forall s p,
  search true (Lit l) p s = true <-> occurs l s.
Proof.
  induction s as [|c s IH]; intros p; cbn.
  - rewrite orb_false_r. split.
    + intros M.
      destruct (match_lit_cont _ _ _ _ M) as (mid & suf & _ & E & C & _).
      exists "", mid, suf. auto.
    + intros ([|? ?] & mid & suf & E & C).
      * rewrite append_empty in E. rewrite E. now apply match_lit_start.
      * rewrite append_cons in E. discriminate.
  - rewrite orb_true_iff, IH. split.
    + intros [M|O]; [|now apply occurs_skip].
      destruct (match_lit_cont _ _ _ _ M) as (mid & suf & _ & E & C & _).
      exists "", mid, suf. auto.
    + intros ([|c' pre] & mid & suf & E & C).
      * left. rewrite append_empty in E. rewrite E.
        now apply match_lit_start.
      * right. rewrite append_cons in E. injection E as -> ->.
        now exists pre, mid, suf.
Qed.

Lemma match_dotstar_cont : forall s p k,
  match_dotstar p s k = true ->
  exists skipped rest p', s = skipped ++ rest /\ k p' rest = true.
Proof.
  induction s as [|c s IH]; intros p k M; cbn in M.
  - exists "", "", p. auto.
  - apply orb_true_iff in M as [M|M].
    + destruct (is_line_terminator c); [discriminate|].
      destruct (IH _ _ M) as (skipped & rest & p' & -> & K).
      now exists (String c skipped), rest, p'.
    + now exists "", (String c s), p.
Qed.

(** [(?=.*\bword\b)] holds only where the word occurs further on. *)
Lemma lookahead_word (w s : string) (p : option ascii) :
  matches true (Seq DotStar (whole_word w)) p s accept = true ->
  occurs w s.
Proof.
  cbn. intros M.
  destruct (match_dotstar_cont _ _ _ M) as (skipped & rest & p' & -> & K).
  destruct (xorb _ _); [|discriminate].
  destruct (match_lit_cont _ _ _ _ K) as (mid & suf & _ & -> & C & _).
  exists skipped, mid, suf. auto.
Qed.

Lemma search_seq_lit (l : string) (r : regex) : forall s p,
  search true (Seq (Lit l) r) p s = true ->
  exists pre mid rest p',
    s = pre ++ mid ++ rest /\ canonical mid = canonical l
    /\ matches true r p' rest accept = true.
Proof.
  induction s as [|c s IH]; intros p; cbn.
  - rewrite orb_false_r. intros M.
    destruct (match_lit_cont _ _ _ _ M) as (mid & rest & p' & E & C & K).
    now exists "", mid, rest, p'.
  - intros M. apply orb_true_iff in M as [M|M].
    + destruct (match_lit_cont _ _ _ _ M) as (mid & rest & p' & E & C & K).
      now exists "", mid, rest, p'.
    + destruct (IH _ M) as (pre & mid & rest & p' & -> & C & K).
      now exists (String c pre), mid, rest, p'.
Qed.

Lemma two_lookaheads (r1 r2 : regex) (p : option ascii) (s : string) :
  matches true (Seq (LookAhead r1) (LookAhead r2)) p s accept = true ->
  matches true r1 p s accept = true /\ matches true r2 p s accept = true.
Proof.
  cbn [matches].
  destruct (matches true r1 p s accept); [|discriminate].
  destruct (matches true r2 p s accept); [auto|discriminate].
Qed.

End WordFacts.

(** X2: [detectDeviceType] answers isMobile exactly when one of the eight
    words Android, webOS, iPhone, iPad, iPod, BlackBerry, IEMobile,
    Opera Mini occurs somewhere in the user agent, whatever the case of
    its letters. *)
Theorem detectDeviceType_mobile_keywords (b : Browser) (ua : string) :
  dt_isMobile (detectDeviceType b ua) = true
  <-> Exists (fun w => occurs w ua) mobile_keywords.
Proof.
  unfold detectDeviceType, mobile_pattern, mobile_keywords, alternatives.
  cbn [dt_isMobile].
  rewrite !RegExpFacts.test_Alt, !orb_true_iff. unfold test.
  rewrite !WordFacts.search_lit, !Exists_cons, Exists_nil. tauto.
Qed.

Lemma detectDeviceType_mobile_keywords_witness :
  dt_isMobile (detectDeviceType desktop_browser "x IPHONE y") = true.
Proof.
  apply (detectDeviceType_mobile_keywords desktop_browser "x IPHONE y").
  apply Exists_cons_tl, Exists_cons_tl, Exists_cons_hd.
  exists "x ", "IPHONE", " y". split; reflexivity.
Defined.

(** X3: in every answer of [detectDeviceType], isDesktop is the negation
    of isMobile (the tablet test cannot change it, since a tablet is a
    mobile), and touchSupport is the flag of the window, whatever the
    user agent. *)
Theorem detectDeviceType_desktop_is_not_mobile (b : Browser) (ua : string) :
  dt_isDesktop (detectDeviceType b ua)
  = negb (dt_isMobile (detectDeviceType b ua))
  /\ dt_touchSupport (detectDeviceType b ua) = window_ontouchstart b.
Proof.
  split; [|reflexivity].
  pose proof (tablet_pattern_mobile_pattern ua) as T.
  unfold detectDeviceType; cbn [dt_isDesktop dt_isMobile].
  destruct (test true mobile_pattern ua); [reflexivity|].
  destruct (test true tablet_pattern ua); [|reflexivity].
  now discriminate T.
Qed.

(** X4: [detectDeviceType] answers isTablet only when the user agent
    holds the word iPad, or the word Android with the words Mobile and
    Safari both occurring after it. A user agent that holds the word
    iPad is a tablet, whatever else it holds; one that holds neither
    iPad nor Mobile is never a tablet, and neither is one that holds
    neither iPad nor Safari. *)
Theorem detectDeviceType_tablet_words (b : Browser) (ua : string) :
  (dt_isTablet (detectDeviceType b ua) = true ->
   occurs "iPad" ua
   \/ exists pre mid rest,
        ua = pre ++ mid ++ rest /\ canonical mid = canonical "Android"
        /\ occurs "Mobile" rest /\ occurs "Safari" rest)
  /\ (occurs "iPad" ua -> dt_isTablet (detectDeviceType b ua) = true)
  /\ (~ occurs "iPad" ua -> ~ occurs "Mobile" ua ->
      dt_isTablet (detectDeviceType b ua) = false)
  /\ (~ occurs "iPad" ua -> ~ occurs "Safari" ua ->
      dt_isTablet (detectDeviceType b ua) = false).
Proof.
  assert (Words : dt_isTablet (detectDeviceType b ua) = true ->
            occurs "iPad" ua
            \/ exists pre mid rest,
                 ua = pre ++ mid ++ rest /\ canonical mid = canonical "Android"
                 /\ occurs "Mobile" rest /\ occurs "Safari" rest).
  { unfold detectDeviceType, tablet_pattern. cbn [dt_isTablet].
    rewrite RegExpFacts.test_Alt, orb_true_iff. unfold test.
    rewrite WordFacts.search_lit. intros [I|A]; [now left|right].
    apply WordFacts.search_seq_lit in A
      as (pre & mid & rest & p' & -> & C & M).
    exists pre, mid, rest. split; [reflexivity|]. split; [exact C|].
    apply WordFacts.two_lookaheads in M as [Mobile Safari].
    eauto using WordFacts.lookahead_word. }
  split; [exact Words|]. split; [|split].
  - unfold detectDeviceType, tablet_pattern. cbn [dt_isTablet].
    rewrite RegExpFacts.test_Alt, orb_true_iff. unfold test.
    rewrite WordFacts.search_lit. now left.
  - intros NoPad NoMobile.
    destruct (dt_isTablet (detectDeviceType b ua)); [|reflexivity].
    destruct (Words eq_refl) as [I|(pre & mid & rest & -> & _ & M & _)];
      [now destruct NoPad|].
    destruct NoMobile. now apply WordFacts.occurs_after, WordFacts.occurs_after.
  - intros NoPad NoSafari.
    destruct (dt_isTablet (detectDeviceType b ua)); [|reflexivity].
    destruct (Words eq_refl) as [I|(pre & mid & rest & -> & _ & _ & S)];
      [now destruct NoPad|].
    destruct NoSafari. now apply WordFacts.occurs_after, WordFacts.occurs_after.
Qed.

(** A phone that passes for a tablet, a tablet that does not, and a user
    agent that has Android without Mobile and is a tablet by its iPad. *)
Lemma detectDeviceType_tablet_words_witness :
  (occurs "iPad" android_phone_userAgent
   \/ exists pre mid rest,
        android_phone_userAgent = pre ++ mid ++ rest
        /\ canonical mid = canonical "Android"
        /\ occurs "Mobile" rest /\ occurs "Safari" rest)
  /\ dt_isTablet (detectDeviceType desktop_browser android_tablet_userAgent)
     = false
  /\ dt_isTablet (detectDeviceType desktop_browser ipad_like_userAgent)
     = true.
Proof.
  split; [|split].
  - apply (detectDeviceType_tablet_words desktop_browser
             android_phone_userAgent).
    vm_compute. reflexivity.
  - destruct (detectDeviceType_tablet_words desktop_browser
                android_tablet_userAgent) as (_ & _ & Neither & _).
    apply Neither.
    + intros O.
      apply (WordFacts.search_lit "iPad" android_tablet_userAgent None) in O.
      vm_compute in O. discriminate O.
    + intros O.
      apply (WordFacts.search_lit "Mobile" android_tablet_userAgent None) in O.
      vm_compute in O. discriminate O.
  - apply (detectDeviceType_tablet_words desktop_browser ipad_like_userAgent).
    exists "Mozilla/5.0 (Linux; Android 9; ", "iPad", "-like) Safari/537.36".
    split; reflexivity.
Defined.

(** ** Session identifiers *)

(** X5: the random component of an identifier has at most nine
    characters, each of them a digit or a lower-case letter, and it is
    the same for two random numbers that print alike on their first nine
    digits. *)
Theorem random_component_shape (x y : fraction36) :
  (String.length (random_component x) <= 9)%nat
  /\ Forall (fun c => In c (list_ascii_of_string digits36))
            (list_ascii_of_string (random_component x))
  /\ (take 9 x = take 9 y -> random_component x = random_component y).
Proof.
  rewrite !RandomFacts.random_component_digits. repeat split.
  - rewrite RandomFacts.length_string_of_list, length_map, length_take. lia.
  - rewrite list_ascii_of_string_of_list_ascii.
    apply Forall_forall. intros c I.
    apply list_elem_of_fmap in I as (d & -> & _).
    apply RandomFacts.in_alphabet.
  - now intros ->.
Qed.

Lemma random_component_shape_witness :
  random_component [1; 2; 3; 4; 5; 6; 7; 8; 9; 10; 11]
  = random_component [1; 2; 3; 4; 5; 6; 7; 8; 9; 35].
Proof.
  apply (random_component_shape
           [1; 2; 3; 4; 5; 6; 7; 8; 9; 10; 11] [1; 2; 3; 4; 5; 6; 7; 8; 9; 35]).
  reflexivity.
Defined.

(** ** More on getIPAddress *)

(** X6: [getIPAddress] leaves the state of the run as it was; when the
    service answers with a JSON value other than null it returns the ip
    property of that value, whatever the HTTP status of the answer; and
    while the request has not settled it stays pending. *)
Theorem getIPAddress_outcome (b : Browser) (r : Run) :
  snd (getIPAddress b r) = r
  /\ (forall response ip,
        fetch b ipify = Normal response ->
        body response = Some (JsonValue ip) ->
        getIPAddress b r = (Normal ip, r))
  /\ (fetch b ipify = Pending -> getIPAddress b r = (Pending, r)).
Proof.
  unfold getIPAddress, try_catch, bind, browser, await, Response_json,
    get_ip, throw, ret.
  repeat split.
  - destruct (fetch b ipify) as [response| |]; cbn; try reflexivity.
    destruct (body response) as [[|ip]|]; reflexivity.
  - intros response ip -> B. cbn. now rewrite B.
  - now intros ->.
Qed.

Lemma getIPAddress_outcome_witness :
  getIPAddress online_browser fresh = (Normal (Some "203.0.113.7"), fresh).
Proof.
  destruct (getIPAddress_outcome online_browser fresh) as (_ & Answer & _).
  apply (Answer {| status := 200;
                   body := Some (JsonValue (Some "203.0.113.7")) |});
    reflexivity.
Defined.

(** ** getPageLoadTime *)

(** X7: [getPageLoadTime] answers undefined exactly when the browser has
    no [performance.timing]; otherwise it answers loadEventEnd minus
    navigationStart, which is negative as long as loadEventEnd is below
    navigationStart (it is 0 until the load event has ended). *)
Theorem getPageLoadTime_difference (b : Browser) :
  (getPageLoadTime b = None <-> window_performance_timing b = None)
  /\ (forall timing e s,
        window_performance_timing b = Some timing ->
        loadEventEnd timing = Fin e -> navigationStart timing = Fin s ->
        exists q,
          getPageLoadTime b = Some (Fin q)
          /\ (q == e - s)%Q /\ ((e < s)%Q -> (q < 0)%Q)).
Proof.
  unfold getPageLoadTime. split.
  - destruct (window_performance_timing b); split; congruence.
  - intros timing e s -> -> ->. cbn [sub]. eexists. split; [reflexivity|].
    rewrite Qred_correct. split; [reflexivity|]. intros L. lra.
Qed.

Lemma getPageLoadTime_difference_witness :
  exists q,
    getPageLoadTime loading_browser = Some (Fin q)
    /\ (q == 0 - 1700000000000)%Q /\ ((0 < 1700000000000)%Q -> (q < 0)%Q).
Proof.
  destruct (getPageLoadTime_difference loading_browser) as [_ D].
  apply (D {| loadEventEnd := int 0;
              navigationStart := int 1700000000000 |}
           (inject_Z 0) (inject_Z 1700000000000));
    reflexivity.
Defined.

(** ** calculateScrollDepth on a page that is not taller than the viewport *)

(** X8: when scrollHeight and innerHeight are the same finite number,
    their difference is +0 and the result of [calculateScrollDepth] is
    not a finite number: NaN when scrollTop is 0 or NaN, and otherwise
    the infinity of the sign of scrollTop. When the difference is a
    negative number and scrollTop a positive one, the result carries the
    minus sign: it is -0, a negative number or -Infinity. *)
Theorem calculateScrollDepth_degenerate (b : Browser) :
  (documentElement_scrollHeight b = window_innerHeight b ->
   is_finite (Float64.to_number (window_innerHeight b)) = true ->
   Float64.sub (documentElement_scrollHeight b) (window_innerHeight b)
   = S754_zero false
   /\ calculateScrollDepth b
      = match js_or_value (window_pageYOffset b)
                          (documentElement_scrollTop b) with
        | S754_zero _ | S754_nan => S754_nan
        | S754_infinity s | S754_finite s _ _ => S754_infinity s
        end)
  /\ (forall (mt md : positive) (et ed : Z),
        js_or_value (window_pageYOffset b) (documentElement_scrollTop b)
        = S754_finite false mt et ->
        Float64.sub (documentElement_scrollHeight b) (window_innerHeight b)
        = S754_finite true md ed ->
        signed true (calculateScrollDepth b) = true
        /\ (Float64.to_number (calculateScrollDepth b) = NegInf
            \/ exists q,
                 Float64.to_number (calculateScrollDepth b) = Fin q
                 /\ (q <= 0)%Q)).
Proof.
  split.
  - intros Same Finite. unfold calculateScrollDepth. rewrite Same.
    rewrite (Float64Facts.sub_diag _ Finite). split; [reflexivity|].
    destruct (js_or_value (window_pageYOffset b)
                          (documentElement_scrollTop b))
      as [[]|[]| |[] m e]; reflexivity.
  - intros mt md et ed T D. unfold calculateScrollDepth. rewrite T, D.
    change (Float64.of_Z 100) with (S754_finite false 7036874417766400 (-46)).
    pose proof (Float64Facts.div_sign false true mt md et ed) as S.
    cbn [xorb] in S.
    destruct (Float64.div (S754_finite false mt et) (S754_finite true md ed))
      as [[]|[]| |[] m e]; try discriminate S; clear S.
    + split; [reflexivity|]. right. exists 0%Q. split; [reflexivity|].
      apply Qle_refl.
    + split; [reflexivity|]. now left.
    + pose proof (Float64Facts.mul_sign true false m 7036874417766400 e (-46))
        as S.
      cbn [xorb] in S. split; [exact S|].
      destruct (Float64.mul (S754_finite true m e)
                  (S754_finite false 7036874417766400 (-46)))
        as [[]|[]| |[] m' e']; try discriminate S.
      * right. exists 0%Q. split; [reflexivity|]. apply Qle_refl.
      * now left.
      * right. eexists. split; [reflexivity|]. rewrite Qred_correct.
        apply Qlt_le_weak, Float64Facts.value_neg.
Qed.

Lemma calculateScrollDepth_degenerate_witness :
  (Float64.sub (documentElement_scrollHeight bounced_browser)
               (window_innerHeight bounced_browser)
   = S754_zero false
   /\ calculateScrollDepth bounced_browser = S754_infinity false)
  /\ signed true (calculateScrollDepth tall_viewport_browser) = true.
Proof.
  split.
  - apply (calculateScrollDepth_degenerate bounced_browser); reflexivity.
  - apply (proj2 (calculateScrollDepth_degenerate tall_viewport_browser)
             5629499534213120%positive 7036874417766400%positive
             (-47)%Z (-45)%Z);
      vm_compute; reflexivity.
Defined.

(** ** More on formatTrackingData *)

(** X9: [formatTrackingData] never touches [localStorage]; it reads the
    clock once for each of sessionStartTime, lastActivityTime, sessionId
    and timestamp that the caller left out or gave falsy, in this order,
    and it draws a random number only when sessionId is left out. *)
Theorem formatTrackingData_effects (data : UserTrackingData) (b : Browser)
        (r : Run) :
  let r' := snd (formatTrackingData data b r) in
  localStorage r' = localStorage r
  /\ ticks r' = ticks r + falls_back (sessionStartTime data)
                + falls_back (lastActivityTime data)
                + falls_back (sessionId data) + falls_back (timestamp data)
  /\ draws r' = draws r + falls_back (sessionId data).
Proof.
  cbv zeta. rewrite SnapshotFacts.formatTrackingData_snapshot. cbn. auto.
Qed.

(** X10: a snapshot given back to [formatTrackingData] in the same
    browser comes out unchanged, and neither the clock nor the random
    source is read again, provided the clock never reads 0. *)
Theorem formatTrackingData_idempotent (data d : UserTrackingData)
        (b : Browser) (r r' : Run) :
  (forall k, clock b k <> 0%Z) ->
  formatTrackingData data b r = (Normal d, r') ->
  forall r0, formatTrackingData d b r0 = (Normal d, r0).
Proof.
  intros Clock. rewrite SnapshotFacts.formatTrackingData_snapshot.
  cbv zeta. intros [= <- _] r0.
  rewrite SnapshotFacts.formatTrackingData_snapshot. cbv zeta.
  cbn [sessionStartTime lastActivityTime sessionId timestamp snapshot].
  unfold falls_back.
  rewrite !SnapshotFacts.js_or_Some_truthy
    by auto using SnapshotFacts.session_id_truthy, SnapshotFacts.clock_truthy.
  rewrite !Nat.add_0_r. destruct r0 as [t0 d0 l0]. cbn [ticks draws localStorage].
  f_equal. f_equal. unfold snapshot. cbn.
  repeat match goal with
         | |- context [(?a ||| Some (int (clock ?b0 ?k))) ||| ?c] =>
             rewrite (SnapshotFacts.js_or_settled a c (int (clock b0 k)))
               by apply SnapshotFacts.clock_truthy, Clock
         | |- context [(?a ||| Some (session_id ?t ?x)) ||| ?c] =>
             rewrite (SnapshotFacts.js_or_settled a c (session_id t x))
               by apply SnapshotFacts.session_id_truthy
         end.
  rewrite !SnapshotFacts.js_or_again, !SnapshotFacts.js_nullish_again.
  reflexivity.
Qed.

Lemma formatTrackingData_idempotent_witness :
  formatTrackingData
    (snapshot some_overrides desktop_browser
       (Some (int 1700000000000)) (Some (int 1700000000001))
       (Some "abc") (Some (int 1700000000002)))
    desktop_browser fresh
  = (Normal
       (snapshot some_overrides desktop_browser
          (Some (int 1700000000000)) (Some (int 1700000000001))
          (Some "abc") (Some (int 1700000000002))),
     fresh).
Proof.
  apply (formatTrackingData_idempotent some_overrides _ desktop_browser
           fresh
           {| ticks := 3; draws := 0; localStorage := ∅ |}).
  - intros k. cbn. lia.
  - vm_compute. reflexivity.
Defined.

(** X11: a field the caller leaves out (or, for a field merged with
    [||], gives falsy) gets the answer of the inspection functions
    [getBrowserInfo], [getScreenInfo], [getConnectionInfo],
    [getPageLoadTime] and [detectDeviceType] on the navigator's own user
    agent, or its constant (1 page view, 0 for the other counters); the
    connection fields get the answer of [getConnectionInfo] in every
    case. The device flags do not depend on an overridden userAgent. *)
Theorem formatTrackingData_fallback (data : UserTrackingData) (b : Browser)
        (r : Run) (field : key) :
  lazy field = false ->
  match merged field with
  | ByOr => truthy (get data field) = false
  | ByNullish | Copied => get data field = None
  | Spread => True
  end ->
  exists d r',
    formatTrackingData data b r = (Normal d, r')
    /\ get d field = fallback b field.
Proof.
  intros L M. rewrite SnapshotFacts.formatTrackingData_snapshot. cbv zeta.
  do 2 eexists. split; [reflexivity|].
  destruct field; try discriminate L; cbn in M |- *; try reflexivity.
  all: let t := constr:(data) in
       match type of M with
       | context [?f t] => destruct (f t) as [x|]
       end; try discriminate M; try reflexivity.
  all: change (to_boolean x = false) in M; unfold js_or; cbn [truthy];
    rewrite M; reflexivity.
Qed.

Lemma formatTrackingData_fallback_witness :
  exists d r',
    formatTrackingData ipad_override desktop_browser fresh = (Normal d, r')
    /\ get d k_isDesktop = Some (Bool true).
Proof.
  apply (formatTrackingData_fallback ipad_override desktop_browser fresh
           k_isDesktop); reflexivity.
Defined.

(** X12: every snapshot [formatTrackingData] returns has all its fields
    defined but doNotTrack, the four connection fields, ipAddress and
    pageLoadTime; its sessionId is never empty and its pageViews is never
    0. *)
Theorem formatTrackingData_defined_fields (data : UserTrackingData)
        (b : Browser) (r : Run) :
  exists d r',
    formatTrackingData data b r = (Normal d, r')
    /\ (forall field, optional field = false -> is_Some (get d field))
    /\ truthy (sessionId d) = true
    /\ truthy (pageViews d) = true.
Proof.
  rewrite SnapshotFacts.formatTrackingData_snapshot. cbv zeta.
  do 2 eexists. split; [reflexivity|]. split; [|split].
  - intros field O. destruct field; try discriminate O; cbn.
    all: apply fmap_is_Some.
    all: try apply js_or_is_Some.
    all: match goal with
         | |- is_Some (?a ??? _) => destruct a; cbn; eauto
         end.
  - cbn. apply SnapshotFacts.js_or_Some_truthy,
      SnapshotFacts.session_id_truthy.
  - cbn. now apply SnapshotFacts.js_or_Some_truthy.
Qed.

Lemma formatTrackingData_defined_fields_witness :
  exists d r',
    formatTrackingData some_overrides desktop_browser fresh = (Normal d, r')
    /\ is_Some (get d k_timezone).
Proof.
  destruct (formatTrackingData_defined_fields some_overrides desktop_browser
              fresh) as (d & r' & E & D & _).
  exists d, r'. split; [exact E|]. apply D. reflexivity.
Defined.

(** ** More on the local store *)

Module StoreFacts.

(** One call on a store that can be reached and takes the write. *)
Lemma save_step (trackingData : UserTrackingData)
      (events : list TrackingEvent) (b : Browser) (r : Run)
      (entries : list StoredEntry) :
  storage_denied b = false ->
  (forall text, storage_quota b text = true) ->
  holds r entries ->
  saveToLocalStorage trackingData events b r
  = (Normal true,
     {| ticks := S (ticks r); draws := draws r;
        localStorage :=
          <["trackingData" :=
              JSON_stringify
                (PArray (entries
                           ++ [entry_at trackingData events
                                        (clock b (ticks r))]))]>
            (localStorage r) |}).
Proof.
  intros Open Roomy. unfold holds. run_storage. rewrite Open.
  destruct (localStorage r !! "trackingData") as [[| |[l| |]]|];
    try tauto; intros ->; cbn; now rewrite Roomy.
Qed.

(** What is found under the key reads back as it is. *)
Lemma holds_JSON (r : Run) (entries : list StoredEntry) :
  holds r entries -> map JSON_entry entries = entries.
Proof.
  unfold holds.
  destruct (localStorage r !! "trackingData") as [[| |[l| |]]|];
    try tauto; intros ->; [reflexivity| |reflexivity].
  apply JSONFacts.JSON_entries_idem.
Qed.

Lemma holds_insert (t d : nat) (store : gmap string stored)
      (entries : list StoredEntry) :
  holds
    {| ticks := t; draws := d;
       localStorage :=
         <["trackingData" := JSON_stringify (PArray entries)]> store |}
    (map JSON_entry entries).
Proof.
  unfold holds, JSON_stringify. cbn. rewrite lookup_insert_eq.
  now rewrite JSONFacts.JSON_entries_idem.
Qed.

End StoreFacts.



(** X14: [clearLocalStorage] answers true exactly when [localStorage] can
    be reached; after it has, [getFromLocalStorage] returns the empty
    array, whatever was stored (unparsable text included), and a save
    that answers true leaves exactly one entry: the one just written, as
    JSON keeps it. *)
Theorem clearLocalStorage_then_read (trackingData : UserTrackingData)
        (events : list TrackingEvent) (b : Browser) (r r' : Run) :
  fst (clearLocalStorage b r) = Normal (negb (storage_denied b))
  /\ (clearLocalStorage b r = (Normal true, r') ->
      getFromLocalStorage b r' = (Normal (PArray []), r')
      /\ forall r'',
           saveToLocalStorage trackingData events b r' = (Normal true, r'') ->
           stored_entries r''
           = Some [JSON_entry
                     (entry_at trackingData events (clock b (ticks r')))]).
Proof.
  split.
  - run_storage. destruct (storage_denied b); reflexivity.
  - unfold stored_entries. run_storage.
    destruct (storage_denied b); [discriminate|].
    intros [= <-]. cbn. rewrite lookup_delete_eq. split; [reflexivity|].
    intros r''. cbn.
    match goal with
    | |- context [storage_quota ?b0 ?t] => destruct (storage_quota b0 t)
    end; cbn; try discriminate.
    intros [= <-]. cbn. rewrite lookup_insert_eq. cbn [map].
    now rewrite JSONFacts.JSON_entry_idem.
Qed.

Lemma clearLocalStorage_then_read_witness :
  getFromLocalStorage desktop_browser (snd (clearLocalStorage desktop_browser
                                              poisoned_run))
  = (Normal (PArray []), snd (clearLocalStorage desktop_browser poisoned_run))
  /\ stored_entries
       (snd (saveToLocalStorage not_a_number [an_event] desktop_browser
               (snd (clearLocalStorage desktop_browser poisoned_run))))
     = Some [JSON_entry
               (entry_at not_a_number [an_event]
                  (clock desktop_browser
                     (ticks (snd (clearLocalStorage desktop_browser
                                    poisoned_run)))))].
Proof.
  destruct (clearLocalStorage_then_read not_a_number [an_event]
              desktop_browser poisoned_run
              (snd (clearLocalStorage desktop_browser poisoned_run)))
    as [_ After].
  destruct (After eq_refl) as [Read Save].
  split; [exact Read|]. apply Save. reflexivity.
Defined.

(** X15: the three operations of the local store read and write the
    [trackingData] key only: every other key of [localStorage] keeps its
    value; and only [saveToLocalStorage] reads the clock. *)
Theorem localStorage_other_keys (trackingData : UserTrackingData)
        (events : list TrackingEvent) (b : Browser) (r : Run)
        (key : string) :
  key <> "trackingData" ->
  localStorage (snd (saveToLocalStorage trackingData events b r)) !! key
  = localStorage r !! key
  /\ localStorage (snd (clearLocalStorage b r)) !! key = localStorage r !! key
  /\ snd (getFromLocalStorage b r) = r
  /\ ticks (snd (clearLocalStorage b r)) = ticks r.
Proof.
  intros K. repeat split.
  - run_storage. destruct (storage_denied b); [reflexivity|].
    destruct (localStorage r !! "trackingData") as [[| |[entries| |]]|];
      cbn; try reflexivity.
    all: match goal with
         | |- context [storage_quota ?b0 ?t] => destruct (storage_quota b0 t)
         end; cbn; try reflexivity.
    all: now rewrite lookup_insert_ne.
  - run_storage. destruct (storage_denied b); [reflexivity|].
    cbn. now rewrite lookup_delete_ne.
  - run_storage. destruct (storage_denied b); [reflexivity|].
    destruct (localStorage r !! "trackingData") as [[| |v]|]; reflexivity.
  - run_storage. destruct (storage_denied b); reflexivity.
Qed.

Lemma localStorage_other_keys_witness :
  localStorage (snd (clearLocalStorage desktop_browser poisoned_run))
    !! "theme"
  = localStorage poisoned_run !! "theme".
Proof.
  apply (localStorage_other_keys no_overrides [] desktop_browser
           poisoned_run "theme").
  discriminate.
Defined.

(** X16: when the value under the key is not JSON, or is JSON but not an
    array, [saveToLocalStorage] answers false and leaves [localStorage]
    as it was, so every later save fails the same way: the store stays
    unusable until [clearLocalStorage] is called. *)
Theorem saveToLocalStorage_poisoned (trackingData : UserTrackingData)
        (events : list TrackingEvent) (b : Browser) (n : nat) :
  forall r : Run,
    poisoned r ->
    (exists r',
       saveToLocalStorage trackingData events b r = (Normal false, r')
       /\ localStorage r' = localStorage r)
    /\ exists r',
         save_repeatedly n trackingData events b r = (Normal tt, r')
         /\ localStorage r' = localStorage r.
Proof.
  assert (One : forall r, poisoned r ->
            exists r',
              saveToLocalStorage trackingData events b r = (Normal false, r')
              /\ localStorage r' = localStorage r).
  { intros r. unfold poisoned. run_storage.
    destruct (storage_denied b); [eauto|].
    destruct (localStorage r !! "trackingData") as [[| |[entries| |]]|];
      cbn; try tauto; eauto. }
  induction n as [|n IH]; intros r P; (split; [now apply One|]).
  - exists r. auto.
  - cbn [save_repeatedly]. unfold bind at 1.
    destruct (One r P) as (r1 & -> & Same).
    assert (P1 : poisoned r1) by (unfold poisoned in *; now rewrite Same).
    destruct (IH r1 P1) as (_ & r' & -> & Same').
    exists r'. split; [reflexivity|congruence].
Qed.

Lemma saveToLocalStorage_poisoned_witness :
  exists r',
    save_repeatedly 3 no_overrides [an_event] desktop_browser poisoned_run
    = (Normal tt, r')
    /\ localStorage r' = localStorage poisoned_run.
Proof.
  apply (saveToLocalStorage_poisoned no_overrides [an_event] desktop_browser
           3 poisoned_run).
  exact I.
Defined.

(** X17: in a browser whose storage takes every write, [n] saves in a row
    add [n] entries after those that were stored, in the order of the
    calls, each stamped with its own clock reading and each as JSON keeps
    it; no entry is dropped, however many there are. *)
Theorem save_repeatedly_entries (trackingData : UserTrackingData)
        (events : list TrackingEvent) (b : Browser) (n : nat) :
  storage_denied b = false ->
  (forall text, storage_quota b text = true) ->
  forall (r : Run) (entries : list StoredEntry),
    holds r entries ->
    exists r',
      save_repeatedly n trackingData events b r = (Normal tt, r')
      /\ holds r'
           (entries
              ++ map (fun k => JSON_entry
                                 (entry_at trackingData events
                                           (clock b (ticks r + k))))
                     (seq 0 n))
      /\ map se_timestamp
             (map (fun k => JSON_entry
                              (entry_at trackingData events
                                        (clock b (ticks r + k))))
                  (seq 0 n))
         = map (fun k => Some (int (clock b (ticks r + k)))) (seq 0 n)
      /\ ticks r' = ticks r + n.
Proof.
  intros Open Roomy.
  assert (Stamps : forall r,
            map se_timestamp
                (map (fun k => JSON_entry
                                 (entry_at trackingData events
                                           (clock b (ticks r + k))))
                     (seq 0 n))
            = map (fun k => Some (int (clock b (ticks r + k)))) (seq 0 n)).
  { intros r. rewrite List.map_map. now apply List.map_ext. }
  induction n as [|n IH]; intros r entries E.
  - exists r. cbn. rewrite app_nil_r, Nat.add_0_r. auto.
  - cbn [save_repeatedly]. unfold bind at 1.
    rewrite (StoreFacts.save_step _ _ _ _ _ Open Roomy E).
    destruct (IH (fun r0 => ltac:(rewrite List.map_map;
                                  now apply List.map_ext)) _ _
                (StoreFacts.holds_insert
                   (S (ticks r)) (draws r) (localStorage r)
                   (entries ++ [entry_at trackingData events
                                         (clock b (ticks r))])))
      as (r' & -> & E' & _ & T').
    exists r'. split; [reflexivity|]. cbn [ticks] in E', T'.
    split; [|split; [apply Stamps|lia]].
    replace (entries
               ++ map (fun k => JSON_entry
                                  (entry_at trackingData events
                                            (clock b (ticks r + k))))
                      (seq 0 (S n)))%list
      with (map JSON_entry
              (entries ++ [entry_at trackingData events (clock b (ticks r))])
              ++ map (fun k => JSON_entry
                                 (entry_at trackingData events
                                           (clock b (S (ticks r) + k))))
                     (seq 0 n))%list; [exact E'|].
    rewrite List.map_app, (StoreFacts.holds_JSON _ _ E), <- app_assoc.
    f_equal. cbn [seq map app]. rewrite Nat.add_0_r. f_equal.
    rewrite <- seq_shift, List.map_map. apply List.map_ext. intros k.
    now rewrite Nat.add_succ_r.
Qed.

Lemma save_repeatedly_entries_witness :
  exists r',
    save_repeatedly 60 not_a_number [an_event] desktop_browser fresh
    = (Normal tt, r')
    /\ holds r'
         ([] ++ map (fun k => JSON_entry
                                (entry_at not_a_number [an_event]
                                          (clock desktop_browser
                                                 (ticks fresh + k))))
                    (seq 0 60))
    /\ map se_timestamp
           (map (fun k => JSON_entry
                            (entry_at not_a_number [an_event]
                                      (clock desktop_browser
                                             (ticks fresh + k))))
                (seq 0 60))
       = map (fun k => Some (int (clock desktop_browser (ticks fresh + k))))
             (seq 0 60)
    /\ ticks r' = ticks fresh + 60.
Proof.
  apply (save_repeatedly_entries not_a_number [an_event] desktop_browser 60
           eq_refl (fun _ => eq_refl) fresh []).
  reflexivity.
Defined.

(** ** More on sendToMultipleEndpoints *)

Module SendFacts.

Lemma allSettled_fetches (b : Browser) (endpoints : list string) :
  Promise_allSettled
    (map (fun endpoint => Promise_catch (fetch b endpoint) (fun _ => None))
         endpoints)
  = if settled_all b endpoints
    then Normal (map (settles_to b) endpoints)
    else Pending.
Proof.
  induction endpoints as [|endpoint endpoints IH]; [reflexivity|].
  cbn [map Promise_allSettled]. rewrite IH.
  change (settled_all b (endpoint :: endpoints))
    with (match fetch b endpoint with Pending => false | _ => true end
          && settled_all b endpoints).
  unfold settles_to, Promise_catch.
  destruct (fetch b endpoint), (settled_all b endpoints); reflexivity.
Qed.

Lemma results_of_settled (b : Browser) (endpoints : list string) :
  imap
    (fun index result =>
       {| er_endpoint := endpoints !! index;
          er_success :=
            match result with
            | fulfilled (Some _) => true
            | _ => false
            end;
          er_response :=
            match result with
            | fulfilled value => value
            | rejected _ => None
            end |})
    (map (settles_to b) endpoints)
  = map (result_for b) endpoints.
Proof.
  apply list_eq. intros index.
  rewrite list_lookup_imap, !list_lookup_fmap.
  destruct (endpoints !! index) as [endpoint|]; cbn; [|reflexivity].
  unfold result_for, settles_to.
  destruct (fetch b endpoint); reflexivity.
Qed.

Lemma send_run (data : UserTrackingData * list TrackingEvent)
      (endpoints : list string) (b : Browser) (r : Run) :
  sendToMultipleEndpoints data endpoints b r
  = (if settled_all b endpoints
     then Normal (map (result_for b) endpoints)
     else Pending,
     r).
Proof.
  unfold sendToMultipleEndpoints, bind, browser, await, ret. cbn.
  rewrite allSettled_fetches.
  destruct (settled_all b endpoints); [|reflexivity].
  now rewrite results_of_settled.
Qed.

End SendFacts.

(** X18: [sendToMultipleEndpoints] leaves the state of the run as it was
    on every outcome (it never writes to [localStorage], also when every
    endpoint fails); it stays pending exactly when the request of some
    endpoint never settles, and otherwise returns its array. *)
Theorem sendToMultipleEndpoints_settles
        (data : UserTrackingData * list TrackingEvent)
        (endpoints : list string) (b : Browser) (r : Run) :
  snd (sendToMultipleEndpoints data endpoints b r) = r
  /\ (fst (sendToMultipleEndpoints data endpoints b r) = Pending
      <-> Exists (fun endpoint => fetch b endpoint = Pending) endpoints)
  /\ (Forall (fun endpoint => fetch b endpoint <> Pending) endpoints ->
      exists results,
        fst (sendToMultipleEndpoints data endpoints b r) = Normal results).
Proof.
  rewrite SendFacts.send_run. cbn [fst snd]. split; [reflexivity|].
  assert (S : settled_all b endpoints = true
              <-> Forall (fun endpoint => fetch b endpoint <> Pending)
                         endpoints).
  { unfold settled_all. rewrite forallb_forall, Forall_forall.
    split; intros H e I; specialize (H e);
      rewrite <- list_elem_of_In in *; specialize (H I);
      destruct (fetch b e); congruence. }
  split.
  - rewrite Exists_exists. split.
    + destruct (settled_all b endpoints) eqn:A; [discriminate|]. intros _.
      assert (NF : ~ Forall (fun endpoint => fetch b endpoint <> Pending)
                            endpoints)
        by (intros F; apply S in F; discriminate).
      apply not_Forall_Exists in NF; [|intros e; destruct (fetch b e);
        [left|left|right]; congruence].
      apply Exists_exists in NF as (e & I & P). exists e. split; [exact I|].
      cbn in P. destruct (fetch b e); [exfalso; apply P; discriminate
                                      |exfalso; apply P; discriminate
                                      |reflexivity].
    + intros (e & I & P).
      destruct (settled_all b endpoints) eqn:A; [|reflexivity].
      pose proof (proj1 S eq_refl) as F. rewrite Forall_forall in F.
      now destruct (F e I).
  - intros F. apply S in F. rewrite F. eauto.
Qed.

Lemma sendToMultipleEndpoints_settles_witness :
  fst (sendToMultipleEndpoints (no_overrides, [an_event])
         ["/api/tracking"; "/api/slow"] online_browser fresh)
  = Pending.
Proof.
  apply (sendToMultipleEndpoints_settles (no_overrides, [an_event])
           ["/api/tracking"; "/api/slow"] online_browser fresh).
  apply Exists_cons_tl, Exists_cons_hd. reflexivity.
Defined.

(** X19: in the array [sendToMultipleEndpoints] returns, the entry of an
    endpoint carries that endpoint, the response of its request or null,
    and a success flag that is true exactly when the response is not
    null; the array for two lists of endpoints put end to end is the two
    arrays put end to end. *)
Theorem sendToMultipleEndpoints_entries
        (data : UserTrackingData * list TrackingEvent)
        (endpoints more : list string) (b : Browser) (r : Run)
        (results : list EndpointResult) :
  sendToMultipleEndpoints data (endpoints ++ more) b r = (Normal results, r) ->
  results = (map (result_for b) endpoints ++ map (result_for b) more)%list
  /\ Forall (fun res =>
               er_success res = bool_decide (is_Some (er_response res)))
            results
  /\ sendToMultipleEndpoints data endpoints b r
     = (Normal (map (result_for b) endpoints), r)
  /\ sendToMultipleEndpoints data more b r
     = (Normal (map (result_for b) more), r).
Proof.
  rewrite !SendFacts.send_run.
  unfold settled_all. rewrite forallb_app. fold (settled_all b endpoints).
  fold (settled_all b more).
  destruct (settled_all b endpoints), (settled_all b more);
    cbn; try discriminate.
  intros [= <-]. rewrite map_app. repeat split.
  rewrite <- map_app. apply Forall_forall. intros res I.
  apply list_elem_of_fmap in I as (e & -> & _).
  unfold result_for; cbn. destruct (fetch b e); reflexivity.
Qed.

Lemma sendToMultipleEndpoints_entries_witness :
  sendToMultipleEndpoints (no_overrides, [an_event]) ["/api/tracking"]
    online_browser fresh
  = (Normal (map (result_for online_browser) ["/api/tracking"]), fresh).
Proof.
  apply (sendToMultipleEndpoints_entries (no_overrides, [an_event])
           ["/api/tracking"] ["/api/backup"; "/api/analytics"]
           online_browser fresh
           (map (result_for online_browser)
                ["/api/tracking"; "/api/backup"; "/api/analytics"])).
  vm_compute. reflexivity.
Defined.

(** ** createEvent *)

(** X20: events created one after the other keep the order and the types
    of the calls, carry the empty data of the default argument, and are
    stamped with successive readings of the clock; nothing is written to
    [localStorage]. *)
Theorem create_events_in_order (types : list EventType) (b : Browser) :
  forall r : Run,
    exists events r',
      create_events types b r = (Normal events, r')
      /\ map ev_type events = types
      /\ map ev_timestamp events
         = map (fun k => Some (int (clock b (ticks r + k))))
               (seq 0 (List.length types))
      /\ Forall (fun e => ev_data e = no_overrides) events
      /\ localStorage r' = localStorage r.
Proof.
  induction types as [|type types IH]; intros r.
  - exists [], r. cbn. auto.
  - cbn [create_events]. unfold bind at 1.
    unfold createEvent at 1, bind at 1, Date_now at 1, ret at 1.
    destruct (IH {| ticks := S (ticks r); draws := draws r;
                    localStorage := localStorage r |})
      as (events & r' & E & T & S & D & L).
    unfold bind at 1. rewrite E. unfold ret.
    do 2 eexists. split; [reflexivity|]. cbn [map ev_type ev_timestamp].
    rewrite T, S. repeat split; [|now constructor|exact L].
    cbn [List.length seq map ticks]. rewrite Nat.add_0_r. f_equal.
    rewrite <- seq_shift, map_map. apply map_ext. intros k.
    now rewrite Nat.add_succ_r.
Qed.

(** ** The carousel *)

Module CarouselFacts.
Import Carousel.

Lemma length_is_5 : testimonials_length = 5%Z.
Proof. reflexivity. Qed.

Lemma step_in_range (currentIndex : Z) (a : action) :
  possible a ->
  (0 <= currentIndex < testimonials_length)%Z ->
  (0 <= step currentIndex a < testimonials_length)%Z.
Proof.
  rewrite length_is_5. unfold step, handlePrev, handleNext.
  rewrite length_is_5. destruct a as [| |index]; cbn [possible].
  - intros _ R. destruct (Z.eqb_spec currentIndex 0); lia.
  - intros _ R. destruct (Z.eqb_spec currentIndex (5 - 1)); lia.
  - change (List.length testimonials) with 5. lia.
Qed.

End CarouselFacts.

(** X21: whatever the user does with the arrows and the dots, the index
    of the carousel stays the index of a testimonial; on such an index
    the two arrows undo each other, and as many presses of the next arrow
    as there are testimonials come back to the same one. *)
Theorem carousel_index (actions : list Carousel.action) (index : Z) :
  (Forall Carousel.possible actions ->
   (0 <= Carousel.run actions < Carousel.testimonials_length)%Z)
  /\ ((0 <= index < Carousel.testimonials_length)%Z ->
      Carousel.handleNext (Carousel.handlePrev index) = index
      /\ Carousel.handlePrev (Carousel.handleNext index) = index
      /\ Nat.iter (List.length Carousel.testimonials) Carousel.handleNext
                  index
         = index).
Proof.
  split.
  - unfold Carousel.run.
    assert (G : forall start,
              (0 <= start < Carousel.testimonials_length)%Z ->
              Forall Carousel.possible actions ->
              (0 <= fold_left Carousel.step actions start
               < Carousel.testimonials_length)%Z).
    { induction actions as [|a actions IH]; intros start R P; [exact R|].
      cbn [fold_left]. apply Forall_cons in P as [Pa P]. apply IH; [|exact P].
      now apply CarouselFacts.step_in_range. }
    apply G. rewrite CarouselFacts.length_is_5. lia.
  - rewrite CarouselFacts.length_is_5. intros R.
    assert (C : (index = 0 \/ index = 1 \/ index = 2 \/ index = 3
                 \/ index = 4)%Z) by lia.
    destruct C as [->|[->|[->|[->| ->]]]]; repeat split; reflexivity.
Qed.

Lemma carousel_index_witness :
  (0 <= Carousel.run [Carousel.Prev; Carousel.Dot 3; Carousel.Next;
                      Carousel.Next]
   < Carousel.testimonials_length)%Z.
Proof.
  apply (carousel_index [Carousel.Prev; Carousel.Dot 3; Carousel.Next;
                         Carousel.Next] 0).
  repeat constructor.
Defined.
